(** * dx_environment.py: environment lifecycle actions against a Delphix engine

    A shallow embedding of [dx_environment.py].  The script only builds
    request objects and hands them to the vendor SDK ([delphixpy]) and to
    the helpers of [lib]; neither is part of the script, so both are taken
    as an arbitrary collaborator (record [Vendor]) and every statement
    below holds for all of its behaviours.

    Python values are a small tagged union, objects carry their class name
    and the attributes assigned so far, exceptions are an inductive type
    and effectful code lives in a state-and-exception monad over the
    session object. *)

From Stdlib Require Import ZArith String List Bool.
From stdpp Require Import base strings pretty gmap list.

Local Open Scope string_scope.
Local Open Scope list_scope.
Local Open Scope Z_scope.

(** ** Python values *)

#[warnings="-register-all"]
Inductive value :=
| VNone
| VBool (b : bool)
| VInt (n : Z)
| VStr (s : string)
| VDict (items : list (string * value))
| VObj (cls : string) (attrs : list (string * value)).

(** Truth value of a Python object, as tested by [if x:]. *)
Definition truthy (v : value) : bool :=
  match v with
  | VNone => false
  | VBool b => b
  | VInt n => negb (n =? 0)
  | VStr s => negb (String.eqb s "")
  | VDict items => match items with [] => false | _ => true end
  | VObj _ _ => true
  end.

(** [x is None]. *)
Definition is_None (v : value) : bool :=
  match v with VNone => true | _ => false end.

(** [x == 'literal']. *)
Definition eq_str (v : value) (s : string) : bool :=
  match v with VStr t => String.eqb t s | _ => false end.

(** ** Exceptions *)

Inductive exn :=
| DlpxException (error : string)
| DlpxObjectNotFound (message : string)
| RequestError (error : string)
| HttpError (status : string)
| JobError (job : string)
| AttributeError (attr : string)
| KeyError (key : string)
| SystemExit (code : value)
| KeyboardInterrupt
| OtherError (cls : string) (msg : string).

(** [str(err)], as interpolated into the messages. *)
Definition str_exn (e : exn) : string :=
  match e with
  | DlpxException s | DlpxObjectNotFound s | RequestError s
  | HttpError s | JobError s | AttributeError s | KeyError s => s
  | SystemExit _ => ""
  | KeyboardInterrupt => ""
  | OtherError _ s => s
  end.

(** The classes named in the [except] clauses of the script. *)
Inductive exn_class :=
| CDlpxException | CRequestError | CHttpError | CJobError
| CAttributeError | CKeyError | CSystemExit | CKeyboardInterrupt.

(** [isinstance(e, c)].  Whether [DlpxObjectNotFound] derives from
    [DlpxException] is decided in [lib.dlpx_exceptions]; it is the
    parameter [nf]. *)
Definition isinstance (nf : bool) (e : exn) (c : exn_class) : bool :=
  match e, c with
  | DlpxException _, CDlpxException => true
  | DlpxObjectNotFound _, CDlpxException => nf
  | RequestError _, CRequestError => true
  | HttpError _, CHttpError => true
  | JobError _, CJobError => true
  | AttributeError _, CAttributeError => true
  | KeyError _, CKeyError => true
  | SystemExit _, CSystemExit => true
  | KeyboardInterrupt, CKeyboardInterrupt => true
  | _, _ => false
  end.

Definition catches (nf : bool) (classes : list exn_class) (e : exn) : bool :=
  existsb (isinstance nf e) classes.

(** ** Results of code that may raise *)

Inductive Result (A : Type) :=
| Ok (a : A)
| Raise (e : exn).
Arguments Ok {A} a.
Arguments Raise {A} e.

Definition rbind {A B} (r : Result A) (k : A -> Result B) : Result B :=
  match r with
  | Ok a => k a
  | Raise e => Raise e
  end.

Declare Scope result_scope.
Delimit Scope result_scope with result.
Notation "x <- r ;; k" := (rbind r (fun x => k))
  (at level 100, r at next level, right associativity) : result_scope.

(** [try: body except classes: handler] for code without side effects. *)
Definition rtry {A} (nf : bool) (body : Result A) (classes : list exn_class)
    (handler : exn -> Result A) : Result A :=
  match body with
  | Ok a => Ok a
  | Raise e => if catches nf classes e then handler e else Raise e
  end.

(** ** Objects: attribute access and assignment *)

Fixpoint assoc_get (k : string) (l : list (string * value)) : option value :=
  match l with
  | [] => None
  | (k', v) :: l' => if String.eqb k k' then Some v else assoc_get k l'
  end.

Fixpoint assoc_set (k : string) (v : value) (l : list (string * value))
    : list (string * value) :=
  match l with
  | [] => [(k, v)]
  | (k', v') :: l' =>
      if String.eqb k k' then (k, v) :: l' else (k', v') :: assoc_set k v l'
  end.

(** [vo.Cls()]: a fresh object, nothing assigned yet. *)
Definition new (cls : string) : value := VObj cls [].

(** [o.a], for an attribute that has been assigned. *)
Definition getattr (o : value) (a : string) : Result value :=
  match o with
  | VObj _ attrs =>
      match assoc_get a attrs with
      | Some v => Ok v
      | None => Raise (AttributeError a)
      end
  | _ => Raise (AttributeError a)
  end.

(** [o.a = v]. *)
Definition setattr (o : value) (a : string) (v : value) : Result value :=
  match o with
  | VObj cls attrs => Ok (VObj cls (assoc_set a v attrs))
  | _ => Raise (AttributeError a)
  end.

(** [o.p1.p2...pn.a = v]: the object reached through [path] is updated in
    place; every object of a request is referenced from one attribute
    only, so the heap is the tree of attributes. *)
Fixpoint setattr_path (o : value) (path : list string) (a : string) (v : value)
    : Result value :=
  match path with
  | [] => setattr o a v
  | p :: path' =>
      (child <- getattr o p ;;
       child' <- setattr_path child path' a v ;;
       setattr o p child')%result
  end.

(** [o.p1.p2...pn]. *)
Fixpoint getattr_path (o : value) (path : list string) : Result value :=
  match path with
  | [] => Ok o
  | p :: path' => (child <- getattr o p ;; getattr_path child path')%result
  end.

(** ** Objects held by the engine *)

(** An environment as returned by the engine.  [host] is [None] for the
    kinds of environment that have no such attribute (reading it raises
    [AttributeError]); [ase_host_environment_parameters] is [Some] when
    the attribute is an instance of [vo.ASEHostEnvironmentParameters]. *)
Module Env.
Record t := {
  name : string;
  type : string;
  reference : string;
  enabled : bool;
  primary_user : string;
  host : option string;
  ase_host_environment_parameters : option value
}.
End Env.

(** A host as returned by the engine. *)
Module Host.
Record t := {
  name : string;
  type : string;
  reference : string
}.
End Host.

(** ** Calls into the vendor SDK *)

Inductive Call :=
| environment_enable (ref : string)
| environment_disable (ref : string)
| environment_delete (ref : string)
| environment_refresh (ref : string)
| environment_create (params : value)
| environment_get_all
| host_update (ref : string) (host_obj : value).

(** The collaborators of the script: [delphixpy], [lib.get_references],
    [lib.dlpx_exceptions] and the session class of [lib.get_session].
    Every answer may depend on the calls issued so far. *)
Record Vendor := {
  (** whether [DlpxObjectNotFound] derives from [DlpxException] *)
  not_found_is_dlpx : bool;
  (** the outcome of [dlpx_obj.dlpx_engines.keys()[0]]; it depends on the
      class of [dlpx_engines], which the session class decides (a name for
      a list of keys, a [TypeError] for the key view of a dictionary) *)
  engines_key0 : Result string;
  (** a vendor action: it raises, or succeeds and leaves this value in
      [server_session.last_job] *)
  respond : list Call -> Call -> Result value;
  (** [environment.get_all(session)] *)
  get_all : list Call -> Result (list Env.t);
  (** [get_references.find_obj_by_name(session, environment, name)] *)
  find_env_by_name : list Call -> value -> Result (option Env.t);
  (** [get_references.find_obj_by_name(session, host, name)] *)
  find_host_by_name : list Call -> value -> Result (option Host.t);
  (** [get_references.find_all_objects(session, environment)] *)
  find_all_envs : list Call -> Result (list Env.t);
  (** [get_references.find_obj_name(session, cls, reference)] *)
  find_obj_name : list Call -> string -> string -> Result string;
  (** how an attribute that was never assigned, or an object, prints *)
  str_undef : string;
  str_obj : value -> string
}.

(** ** The session object *)

Record Session := {
  (** vendor calls issued so far, oldest first *)
  calls : list Call;
  (** [dlpx_obj.server_session.last_job] *)
  last_job : value;
  (** [dlpx_obj.jobs] *)
  jobs : gmap string value;
  (** lines handed to [dx_logging.print_exception] / [print_info] *)
  log : list string;
  (** lines written by [print] *)
  stdout : list string
}.

Definition with_call (c : Call) (s : Session) : Session :=
  {| calls := calls s ++ [c]; last_job := last_job s; jobs := jobs s;
     log := log s; stdout := stdout s |}.

Definition with_last_job (j : value) (s : Session) : Session :=
  {| calls := calls s; last_job := j; jobs := jobs s;
     log := log s; stdout := stdout s |}.

Definition with_job (k : string) (j : value) (s : Session) : Session :=
  {| calls := calls s; last_job := last_job s; jobs := <[k := j]> (jobs s);
     log := log s; stdout := stdout s |}.

Definition with_log (line : string) (s : Session) : Session :=
  {| calls := calls s; last_job := last_job s; jobs := jobs s;
     log := log s ++ [line]; stdout := stdout s |}.

Definition with_stdout (line : string) (s : Session) : Session :=
  {| calls := calls s; last_job := last_job s; jobs := jobs s;
     log := log s; stdout := stdout s ++ [line] |}.

(** ** The monad of the action functions: state that survives a raise *)

Definition M (A : Type) : Type := Session -> Result A * Session.

Definition ret {A} (a : A) : M A := fun s => (Ok a, s).

Definition raise {A} (e : exn) : M A := fun s => (Raise e, s).

Definition bind {A B} (m : M A) (k : A -> M B) : M B :=
  fun s =>
    match m s with
    | (Ok a, s') => k a s'
    | (Raise e, s') => (Raise e, s')
    end.

Definition lift {A} (r : Result A) : M A := fun s => (r, s).

Declare Scope py_scope.
Delimit Scope py_scope with py.
Notation "x <- m ;; k" := (bind m (fun x => k))
  (at level 100, m at next level, right associativity) : py_scope.
Notation "m ;; k" := (bind m (fun _ => k))
  (at level 100, right associativity) : py_scope.

(** [for x in l: body x]. *)
Fixpoint for_each {A} (l : list A) (body : A -> M unit) : M unit :=
  match l with
  | [] => ret tt
  | x :: l' => (body x ;; for_each l' body)%py
  end.

(** [try: body except classes1: h1 except classes2: h2 ...]: the first
    clause whose classes match handles the exception. *)
Fixpoint select_handler {A} (nf : bool)
    (clauses : list (list exn_class * (exn -> M A))) (e : exn) : option (M A) :=
  match clauses with
  | [] => None
  | (classes, h) :: rest =>
      if catches nf classes e then Some (h e) else select_handler nf rest e
  end.

Definition try_except {A} (nf : bool) (body : M A)
    (clauses : list (list exn_class * (exn -> M A))) : M A :=
  fun s =>
    match body s with
    | (Ok a, s') => (Ok a, s')
    | (Raise e, s') =>
        match select_handler nf clauses e with
        | Some h => h s'
        | None => (Raise e, s')
        end
    end.

Definition nl : string := String (Ascii.ascii_of_nat 10) EmptyString.

(** [dx_logging.print_exception], [print_info], [print_debug]: a line more
    in the log. *)
Definition print_exception (line : string) : M unit :=
  fun s => (Ok tt, with_log line s).

Definition print_info (line : string) : M unit :=
  fun s => (Ok tt, with_log line s).

Definition print_debug (line : string) : M unit :=
  fun s => (Ok tt, with_log line s).

(** [print(line)] *)
Definition print (line : string) : M unit :=
  fun s => (Ok tt, with_stdout line s).

Section Actions.

Context (V : Vendor).

Local Abbreviation nf := (not_found_is_dlpx V).

(** [str(v)] / the rendering of [{v}] in an f-string. *)
Definition str (v : value) : string :=
  match v with
  | VNone => "None"
  | VBool true => "True"
  | VBool false => "False"
  | VInt n => pretty n
  | VStr s => s
  | VDict _ | VObj _ _ => str_obj V v
  end.

(** [{o.a}] in an f-string: an attribute of a request object that was never
    assigned reads as the SDK's marker for undefined. *)
Definition str_attr (o : value) (a : string) : string :=
  match getattr o a with
  | Ok v => str v
  | Raise _ => str_undef V
  end.

(** *** Primitive steps *)

(** [dlpx_obj.dlpx_engines.keys()[0]] *)
Definition first_engine_name : M string := lift (engines_key0 V).

(** A vendor action: the call is issued, then it raises or updates
    [server_session.last_job]. *)
Definition vendor_call (c : Call) : M unit :=
  fun s =>
    match respond V (calls s) c with
    | Ok j => (Ok tt, with_last_job j (with_call c s))
    | Raise e => (Raise e, with_call c s)
    end.

Definition environment_get_all_ : M (list Env.t) :=
  fun s => (get_all V (calls s), with_call environment_get_all s).

Definition find_obj_by_name_environment (name : value) : M (option Env.t) :=
  fun s => (find_env_by_name V (calls s) name, s).

Definition find_obj_by_name_host (name : value) : M (option Host.t) :=
  fun s => (find_host_by_name V (calls s) name, s).

Definition find_all_objects_environment : M (list Env.t) :=
  fun s => (find_all_envs V (calls s), s).

Definition find_obj_name_ (cls ref : string) : M string :=
  fun s => (find_obj_name V (calls s) cls ref, s).

(** [dlpx_obj.jobs[engine_name] = dlpx_obj.server_session.last_job] *)
Definition store_last_job (engine_name : string) : M unit :=
  fun s => (Ok tt, with_job engine_name (last_job s) s).

(** Reading an attribute: [env_obj.reference], [host_obj.type] ... on the
    result of a lookup, where [None] has no attributes, and [env.host] on
    an environment, which may lack it.  [AttributeError] when missing. *)
Definition attr_of {O A} (obj : option O) (a : string) (proj : O -> A) : M A :=
  match obj with
  | Some o => ret (proj o)
  | None => raise (AttributeError a)
  end.

(** *** enable_environment, disable_environment *)

Definition enable_environment (env_name : value) : M unit :=
  (env_obj <- find_obj_by_name_environment env_name ;;
   try_except nf
     (ref <- attr_of env_obj "reference" Env.reference ;;
      vendor_call (environment_enable ref))
     [([CDlpxException; CRequestError],
       fun err => print_exception
         ("ERROR: Enabling the host " +:+ str env_name +:+
          " encountered an error:" +:+ nl +:+ str_exn err))])%py.

Definition disable_environment (env_name : value) : M unit :=
  (env_obj <- find_obj_by_name_environment env_name ;;
   try_except nf
     (ref <- attr_of env_obj "reference" Env.reference ;;
      vendor_call (environment_disable ref))
     [([CDlpxException; CRequestError],
       fun err => print_exception
         ("ERROR: Disabling the host " +:+ str env_name +:+
          " encountered an error:" +:+ nl +:+ str_exn err))])%py.

(** *** update_host_address *)

Definition update_host_address (old_host_address new_host_address : value)
    : M unit :=
  (old_host_obj <- find_obj_by_name_host old_host_address ;;
   ty <- attr_of old_host_obj "type" Host.type ;;
   let host_obj :=
     if String.eqb ty "WindowsHost" then new "WindowsHost" else new "UnixHost" in
   host_obj <- lift (setattr host_obj "address" new_host_address) ;;
   try_except nf
     (ref <- attr_of old_host_obj "reference" Host.reference ;;
      vendor_call (host_update ref host_obj))
     [([CDlpxException; CRequestError],
       fun err => print_exception
         ("ERROR: Updating the host " +:+ str_attr host_obj "name" +:+
          " encountered an error:" +:+ nl +:+ str_exn err))])%py.

(** *** list_env *)

Definition str_bool (b : bool) : string := str (VBool b).

Definition list_env_body (env : Env.t) (env_host : string) : M string :=
  (env_user <- find_obj_name_ "environment.user" (Env.primary_user env) ;;
   env_host <- try_except nf
     (h <- attr_of (Env.host env) "host" id ;;
      find_obj_name_ "host" h)
     [([CAttributeError], fun _ => ret env_host)] ;;
   (if String.eqb (Env.type env) "WindowsHostEnvironment" then
      print ("Environment Name: " +:+ Env.name env +:+ ", Username: " +:+
             env_user +:+ ", Host: " +:+ env_host +:+ ",Enabled: " +:+
             str_bool (Env.enabled env))
    else if String.eqb (Env.type env) "WindowsCluster"
            || String.eqb (Env.type env) "OracleCluster" then
      print ("Environment Name: " +:+ Env.name env +:+ ", Username: " +:+
             env_user +:+ "Enabled: " +:+ str_bool (Env.enabled env) +:+ ", ")
    else
      print ("Environment Name: " +:+ Env.name env +:+ ", Username: " +:+
             env_user +:+ ", Host: " +:+ env_host +:+ ", Enabled: " +:+
             str_bool (Env.enabled env) +:+ ", ASE Environment Params: " +:+
             match Env.ase_host_environment_parameters env with
             | Some p => str p
             | None => "Undefined"
             end)) ;;
   ret env_host)%py.

(** The [for env in all_envs] loop; [env_host] is what the variable holds
    when the iteration starts. *)
Fixpoint list_env_loop (all_envs : list Env.t) (env_host : string) : M unit :=
  match all_envs with
  | [] => ret tt
  | env :: rest =>
      (env_host <- list_env_body env env_host ;; list_env_loop rest env_host)%py
  end.

Definition list_env : M unit :=
  (all_envs <- environment_get_all_ ;;
   list_env_loop all_envs "")%py.

(** *** delete_env *)

Definition delete_env (env_name : value) : M unit :=
  (engine_name <- first_engine_name ;;
   env_obj <- find_obj_by_name_environment env_name ;;
   match env_obj with
   | Some o =>
       vendor_call (environment_delete (Env.reference o)) ;;
       store_last_job engine_name
   | None =>
       (* the exception object is built and dropped: there is no [raise] *)
       let _ := DlpxObjectNotFound
                  ("Environment was not found: " +:+ str env_name) in
       ret tt
   end)%py.

(** *** refresh_env *)

(** One iteration of the loop over all environments. *)
Definition refresh_env_iteration (engine_name : string) (env_name : value)
    (env_obj : Env.t) : M unit :=
  try_except nf
    (vendor_call (environment_refresh (Env.reference env_obj)) ;;
     store_last_job engine_name)%py
    [([CDlpxException; CRequestError],
      fun err =>
        (* built and dropped, as in [delete_env] *)
        let _ := DlpxException
                   ("Encountered an error while refreshing " +:+
                    str env_name +:+ ": " +:+ str_exn err) in
        ret tt)].

Definition refresh_env (env_name : value) : M unit :=
  (engine_name <- first_engine_name ;;
   if eq_str env_name "all" then
     env_list <- find_all_objects_environment ;;
     for_each env_list (refresh_env_iteration engine_name env_name)
   else
     try_except nf
       (env_obj <- find_obj_by_name_environment env_name ;;
        ref <- attr_of env_obj "reference" Env.reference ;;
        vendor_call (environment_refresh ref) ;;
        store_last_job engine_name)
       [([CDlpxException; CRequestError],
         fun err => raise (DlpxException
           ("Refreshing " +:+ str env_name +:+ " encountered an error:" +:+
            nl +:+ str_exn err)))])%py.

(** *** create_linux_env *)

(** Lines 266-298: the request object, built by successive assignments. *)
Definition linux_env_params
    (env_name host_user ip_addr toolkit_path passwd ase_user ase_pw : value)
    : Result value :=
  (let env_params_obj := new "HostEnvironmentCreateParameters" in
   env_params_obj <- setattr env_params_obj "host_environment"
                       (new "UnixHostCreateParameters") ;;
   env_params_obj <- setattr_path env_params_obj ["host_environment"] "host"
                       (new "UnixHost") ;;
   env_params_obj <- setattr_path env_params_obj ["host_environment"; "host"]
                       "address" ip_addr ;;
   env_params_obj <- setattr_path env_params_obj ["host_environment"] "name"
                       env_name ;;
   env_params_obj <- setattr_path env_params_obj ["host_environment"; "host"]
                       "toolkit_path" toolkit_path ;;
   env_params_obj <- setattr env_params_obj "primary_user"
                       (new "EnvironmentUser") ;;
   env_params_obj <- setattr_path env_params_obj ["primary_user"] "name"
                       host_user ;;
   env_params_obj <-
     (if is_None passwd then
        setattr_path env_params_obj ["primary_user"] "credential"
          (new "SystemKeyCredential")
      else
        env_params_obj <- setattr_path env_params_obj ["primary_user"]
                            "credential" (new "PasswordCredential") ;;
        setattr_path env_params_obj ["primary_user"; "credential"]
          "password" passwd) ;;
   env_params_obj <- setattr env_params_obj "host_parameters"
     (VDict [("host", VDict [("address", ip_addr);
                             ("type", VStr "UnixHost");
                             ("name", env_name);
                             ("toolkitPath", toolkit_path)])]) ;;
   env_params_obj <- setattr env_params_obj "host_environment"
                       (new "UnixHostEnvironment") ;;
   env_params_obj <- setattr_path env_params_obj ["host_environment"] "name"
                       env_name ;;
   if truthy ase_user then
     env_params_obj <- setattr_path env_params_obj ["host_environment"]
                         "ase_host_environment_parameters"
                         (new "ASEHostEnvironmentParameters") ;;
     rtry nf
       (env_params_obj <- setattr_path env_params_obj
                            ["host_environment";
                             "ase_host_environment_parameters"]
                            "db_user" ase_user ;;
        setattr_path env_params_obj
          ["host_environment"; "ase_host_environment_parameters"]
          "credentials"
          (VDict [("type", VStr "PasswordCredential"); ("password", ase_pw)]))
       [CKeyError]
       (fun _ => Raise (DlpxException
          ("--ase_user and --ase_pw ARGUMENTS are required for ASE DBs" +:+ nl)))
   else Ok env_params_obj)%result.

Definition create_linux_env
    (env_name host_user ip_addr toolkit_path passwd ase_user ase_pw : value)
    : M unit :=
  (engine_name <- first_engine_name ;;
   env_params_obj <- lift (linux_env_params env_name host_user ip_addr
                             toolkit_path passwd ase_user ase_pw) ;;
   try_except nf
     (vendor_call (environment_create env_params_obj) ;;
      store_last_job engine_name)
     [([CDlpxException; CRequestError; CHttpError],
       fun err => raise (DlpxException
         ("ERROR: Encountered an exception while creating the environment:"
          +:+ nl +:+ str_exn err)));
      ([CJobError],
       fun err => raise (DlpxException
         ("JobError while creating environment:" +:+ nl +:+ str_exn err)))])%py.

(** *** create_windows_env *)

(** Lines 330-341. *)
Definition windows_env_params (env_name host_user ip_addr passwd : value)
    : Result value :=
  (let env_params_obj := new "HostEnvironmentCreateParameters" in
   env_params_obj <- setattr env_params_obj "primary_user"
                       (new "EnvironmentUser") ;;
   env_params_obj <- setattr_path env_params_obj ["primary_user"] "name"
                       host_user ;;
   env_params_obj <- setattr_path env_params_obj ["primary_user"] "credential"
                       (new "PasswordCredential") ;;
   env_params_obj <- setattr_path env_params_obj ["primary_user"; "credential"]
                       "password" passwd ;;
   env_params_obj <- setattr env_params_obj "host_parameters"
                       (new "WindowsHostCreateParameters") ;;
   env_params_obj <- setattr_path env_params_obj ["host_parameters"] "host"
                       (new "WindowsHost") ;;
   env_params_obj <- setattr_path env_params_obj ["host_parameters"] "name"
                       env_name ;;
   env_params_obj <- setattr_path env_params_obj ["host_parameters"; "host"]
                       "connector_port" (VInt 9100) ;;
   env_params_obj <- setattr_path env_params_obj ["host_parameters"; "host"]
                       "address" ip_addr ;;
   env_params_obj <- setattr env_params_obj "host_environment"
                       (new "WindowsHostEnvironment") ;;
   setattr_path env_params_obj ["host_environment"] "name" env_name)%result.

Definition create_windows_env
    (env_name host_user ip_addr passwd connector_name : value) : M unit :=
  (engine_name <- first_engine_name ;;
   env_params_obj <- lift (windows_env_params env_name host_user ip_addr
                             passwd) ;;
   env_obj <- (if truthy connector_name then
                 find_obj_by_name_environment connector_name
               else ret None) ;;
   env_params_obj <-
     match env_obj with
     | Some o =>
         proxy <- attr_of (Env.host o) "host" id ;;
         lift (setattr_path env_params_obj ["host_environment"] "proxy"
                 (VStr proxy))
     | None =>
         raise (DlpxObjectNotFound
                  ("Host was not found in the Engine: " +:+ str connector_name))
     end ;;
   try_except nf
     (vendor_call (environment_create env_params_obj) ;;
      store_last_job engine_name)
     [([CDlpxException; CRequestError; CHttpError],
       fun err => raise (DlpxException
         ("ERROR: Encountered an exception while creating the environment:"
          +:+ nl +:+ str_exn err)))])%py.

End Actions.

(** ** main *)

(** The collaborators of [main]: constructing the session, setting up the
    log, reading the configuration, and the fan-out of [main_workflow]
    over the engines followed by the joins ([main_workflow] runs inside
    the threads that [run_job] starts; what reaches [main] is the outcome
    of that loop).  The clock and the logger only compute and write. *)
Record Lib := {
  GetSession : Result unit;
  logging_est : value -> Result unit;
  get_config : value -> Result unit;
  (** [for each in run_job.run_job(main_workflow, session, engine,
      single_thread): each.join()] *)
  run_job_and_join : value -> value -> Result unit;
  (** [run_job.time_elapsed(time_start)], printed *)
  time_elapsed : string;
  (** [basename(__file__)] *)
  script_name : string
}.

(** [ARGUMENTS[key]] *)
Definition subscript (ARGUMENTS : gmap string value) (key : string)
    : Result value :=
  match ARGUMENTS !! key with
  | Some v => Ok v
  | None => Raise (KeyError key)
  end.

(** [sys.exit(code)] *)
Definition sys_exit {A} (code : value) : M A := raise (SystemExit code).

Section Main.

Context (V : Vendor) (L : Lib) (ARGUMENTS : gmap string value).

Local Abbreviation nf := (not_found_is_dlpx V).

(** The body of the [try] of [main]. *)
Definition main_body : M unit :=
  (lift (GetSession L) ;;
   logdir <- lift (subscript ARGUMENTS "--logdir") ;;
   lift (logging_est L logdir) ;;
   config_file_path <- lift (subscript ARGUMENTS "--config") ;;
   single_thread <- lift (subscript ARGUMENTS "--single_thread") ;;
   engine <- lift (subscript ARGUMENTS "--engine") ;;
   lift (get_config L config_file_path) ;;
   lift (run_job_and_join L engine single_thread) ;;
   let elapsed_minutes := time_elapsed L in
   print_info ("script took " +:+ elapsed_minutes +:+
               " minutes to get this far."))%py.

Definition main : M unit :=
  try_except nf main_body
    [([CSystemExit],
      (* [sys.exit(err)]: [err] is a SystemExit instance already, so it
         is the exception that is raised *)
      fun err => raise err);
     ([CDlpxException],
      fun err =>
        (print_exception ("ERROR: Please check the ERROR message below:" +:+
                          nl +:+ " " +:+ str_exn err) ;;
         sys_exit (VInt 2))%py);
     ([CHttpError],
      fun err =>
        (print_exception ("ERROR: Connection failed to the Delphix DDP. " +:+
                          "Please check the ERROR message below:" +:+ nl +:+
                          str_exn err) ;;
         sys_exit (VInt 2))%py);
     ([CJobError],
      fun err =>
        (let elapsed_minutes := time_elapsed L in
         print_exception ("A job failed in the Delphix Engine:" +:+ nl +:+
                          str_exn err +:+ "." +:+ script_name L +:+ " took " +:+
                          elapsed_minutes +:+ " minutes to get this far") ;;
         sys_exit (VInt 3))%py);
     ([CKeyboardInterrupt],
      fun _ =>
        (print_debug "You sent a CTRL+C to interrupt the process" ;;
         let elapsed_minutes := time_elapsed L in
         print_info (script_name L +:+ " took " +:+ elapsed_minutes +:+
                     " minutes to get this far."))%py)].

End Main.

(** The status with which the interpreter leaves after [main()], the last
    statement of the script: 0 when it returns, the code of a [SystemExit]
    (none counts as 0, an object that is not an integer as 1), and 1 after
    any other exception. *)
Definition exit_status (r : Result unit) : Z :=
  match r with
  | Ok _ => 0
  | Raise (SystemExit VNone) => 0
  | Raise (SystemExit (VInt n)) => n
  | Raise (SystemExit (VBool b)) => if b then 1 else 0
  | Raise _ => 1
  end.

(** ** main_workflow *)

(** What the [with] statement needs of the object that
    [dlpx_obj.job_mode(single_thread)] returns: [__enter__], and
    [__exit__], which is told the exception that left the block, if any,
    and suppresses it by answering true. *)
Record ContextManager := {
  cm_enter : M unit;
  cm_exit : option exn -> M bool
}.

(** The collaborators of [main_workflow]: the methods of the session
    object and the job poller of [lib.run_job].  Each may do to the
    session whatever it likes. *)
Record Runner := {
  (** [dlpx_obj.dlpx_session(ip_address, username, password)] *)
  dlpx_session : value -> value -> value -> M unit;
  (** [dlpx_obj.job_mode(single_thread)] *)
  job_mode : value -> M ContextManager;
  (** [run_job.find_job_state(engine, dlpx_obj)] *)
  find_job_state : gmap string value -> M unit
}.

(** [with mgr: body].  The body yields [None] when it is still running as
    the fuel of its loop ends; nothing after it has happened then. *)
Definition with_ (mgr : M ContextManager) (body : M (option unit))
    : M (option unit) :=
  (cm <- mgr ;;
   cm_enter cm ;;
   fun s =>
     match body s with
     | (Ok (Some _), s') =>
         bind (cm_exit cm None) (fun _ => ret (Some tt)) s'
     | (Ok None, s') => (Ok None, s')
     | (Raise e, s') =>
         bind (cm_exit cm (Some e))
           (fun suppress => if suppress then ret (Some tt) else raise e) s'
     end)%py.

Section Workflow.

Context (V : Vendor) (R : Runner) (ARGUMENTS : gmap string value).

Local Abbreviation nf := (not_found_is_dlpx V).

(** [ARGUMENTS[key]] as a step of the workflow. *)
Definition arg (key : string) : M value := lift (subscript ARGUMENTS key).

(** Lines 388-413: the action that the flags select. *)
Definition main_workflow_action : M unit :=
  (env_name <- arg "--env_name" ;;
   host_user <- arg "--host_user" ;;
   passwd <- arg "--passwd" ;;
   ip_addr <- arg "--ip" ;;
   type <- arg "--type" ;;
   if eq_str type "windows" then
     host_name <- arg "--connector_name" ;;
     create_windows_env V env_name host_user ip_addr passwd host_name
   else
     type <- arg "--type" ;;
     if eq_str type "linux" then
       toolkit_path <- arg "--toolkit" ;;
       create_linux_env V env_name host_user ip_addr toolkit_path passwd
         VNone VNone
     else
       delete <- arg "--delete" ;;
       if truthy delete then
         delete <- arg "--delete" ;;
         delete_env V delete
       else
         refresh <- arg "--refresh" ;;
         if truthy refresh then
           refresh <- arg "--refresh" ;;
           refresh_env V refresh
         else
           list <- arg "--list" ;;
           if truthy list then list_env V
           else
             update_host <- arg "--update_host" ;;
             if truthy update_host then
               old_host_address <- arg "--old_host_address" ;;
               new_host_address <- arg "--new_host_address" ;;
               update_host_address V old_host_address new_host_address
             else
               enable <- arg "--enable" ;;
               if truthy enable then
                 env_name <- arg "--env_name" ;;
                 enable_environment V env_name
               else
                 disable <- arg "--disable" ;;
                 if truthy disable then
                   env_name <- arg "--env_name" ;;
                   disable_environment V env_name
                 else ret tt)%py.

(** [while dlpx_obj.jobs or thingstodo: if thingstodo: ...], run for at
    most [fuel] tests of the condition; [None] when the loop is still
    running then. *)
Fixpoint main_workflow_loop (fuel : nat) (engine : gmap string value)
    (thingstodo : list string) : M (option unit) :=
  match fuel with
  | O => ret None
  | S fuel' =>
      fun s =>
        if negb (size (jobs s) =? 0)%nat
           || match thingstodo with [] => false | _ => true end
        then
          match thingstodo with
          | _ :: _ =>
              (main_workflow_action ;;
               let thingstodo := removelast thingstodo in
               find_job_state R engine ;;
               main_workflow_loop fuel' engine thingstodo)%py s
          | [] => main_workflow_loop fuel' engine thingstodo s
          end
        else (Ok (Some tt), s)
  end.

(** The function that the thread of an engine runs. *)
Definition main_workflow (engine : gmap string value) (single_thread : value)
    (fuel : nat) : M (option unit) :=
  (try_except nf
     (ip_address <- lift (subscript engine "ip_address") ;;
      username <- lift (subscript engine "username") ;;
      password <- lift (subscript engine "password") ;;
      dlpx_session R ip_address username password)
     [([CDlpxException],
       fun err =>
         hostname <- lift (subscript engine "hostname") ;;
         target <- arg "--target" ;;
         print_exception
           ("ERROR: dx_environment encountered an error authenticating to "
            +:+ " " +:+ str V hostname +:+ " " +:+ str V target +:+ ":" +:+
            nl +:+ str_exn err))] ;;
   let thingstodo := ["thingstodo"] in
   try_except nf
     (with_ (job_mode R single_thread)
        (main_workflow_loop fuel engine thingstodo))
     [([CDlpxException; CRequestError; CJobError; CHttpError],
       fun err =>
         hostname <- lift (subscript engine "hostname") ;;
         print_exception ("Error in dx_environment: " +:+ str V hostname +:+
                          nl +:+ str_exn err) ;;
         ret (Some tt))])%py.

End Workflow.

(** ** A mocked engine for concrete runs *)

Module Mock.

Definition unix_env : Env.t :=
  {| Env.name := "SOURCE"; Env.type := "UnixHostEnvironment";
     Env.reference := "UNIX_HOST_ENVIRONMENT-1"; Env.enabled := true;
     Env.primary_user := "HOST_USER-1"; Env.host := Some "UNIX_HOST-1";
     Env.ase_host_environment_parameters := None |}.

Definition windows_env : Env.t :=
  {| Env.name := "CONNECTOR"; Env.type := "WindowsHostEnvironment";
     Env.reference := "WINDOWS_HOST_ENVIRONMENT-2"; Env.enabled := true;
     Env.primary_user := "HOST_USER-2"; Env.host := Some "WINDOWS_HOST-2";
     Env.ase_host_environment_parameters := None |}.

Definition windows_host : Host.t :=
  {| Host.name := "10.0.1.60"; Host.type := "WindowsHost";
     Host.reference := "WINDOWS_HOST-2" |}.

Definition unix_host : Host.t :=
  {| Host.name := "10.0.1.20"; Host.type := "UnixHost";
     Host.reference := "UNIX_HOST-1" |}.

Definition name_is {O} (name : O -> string) (v : value) (o : O) : bool :=
  eq_str v (name o).

(** An engine holding [envs] and [hosts]; a vendor action fails as
    [failure] says and otherwise leaves the job ["JOB-" n], [n] the
    number of calls issued before it.  Lookups answer [None] for a
    name that is not there. *)
Definition engine (envs : list Env.t) (hosts : list Host.t)
    (failure : Call -> option exn) : Vendor :=
  {| not_found_is_dlpx := true;
     engines_key0 := Ok "landsharkengine";
     respond := fun history c =>
       match failure c with
       | Some e => Raise e
       | None => Ok (VStr ("JOB-" +:+ pretty (length history)))
       end;
     get_all := fun _ =>
       match failure environment_get_all with
       | Some e => Raise e
       | None => Ok envs
       end;
     find_env_by_name := fun _ v => Ok (find (name_is Env.name v) envs);
     find_host_by_name := fun _ v => Ok (find (name_is Host.name v) hosts);
     find_all_envs := fun _ => Ok envs;
     find_obj_name := fun _ _ ref => Ok ref;
     str_undef := "<undef>";
     str_obj := fun _ => "<object>" |}.

Definition never : Call -> option exn := fun _ => None.

(** The refresh of [ref] fails with [e]. *)
Definition refresh_fails (ref : string) (e : exn) : Call -> option exn :=
  fun c =>
    match c with
    | environment_refresh r => if String.eqb r ref then Some e else None
    | _ => None
    end.

(** Every call of the same kind as [c] fails with [e]. *)
Definition fails (c : Call) (e : exn) : Call -> option exn :=
  fun c' =>
    match c, c' with
    | environment_enable _, environment_enable _
    | environment_disable _, environment_disable _
    | environment_delete _, environment_delete _
    | environment_refresh _, environment_refresh _
    | environment_create _, environment_create _
    | environment_get_all, environment_get_all
    | host_update _ _, host_update _ _ => Some e
    | _, _ => None
    end.

Definition start : Session :=
  {| calls := []; last_job := VNone; jobs := ∅; log := []; stdout := [] |}.

Definition two_envs : list Env.t := [unix_env; windows_env].

Definition two_hosts : list Host.t := [windows_host; unix_host].

(** Nothing fails. *)
Definition quiet : Vendor := engine two_envs two_hosts never.

(** The refresh of the first environment is turned down. *)
Definition busy : Vendor :=
  engine two_envs two_hosts
    (refresh_fails "UNIX_HOST_ENVIRONMENT-1" (RequestError "busy")).

(** Every call of the kind of [c] fails with [e]. *)
Definition failing (c : Call) (e : exn) : Vendor :=
  engine two_envs two_hosts (fails c e).

(** The refresh of the first environment hits a connection failure. *)
Definition down : Vendor :=
  engine two_envs two_hosts
    (refresh_fails "UNIX_HOST_ENVIRONMENT-1" (HttpError "503")).

(** The collaborators of [main]; [session] is what constructing the
    session does, everything after it succeeds. *)
Definition lib (session : Result unit) : Lib :=
  {| GetSession := session;
     logging_est := fun _ => Ok tt;
     get_config := fun _ => Ok tt;
     run_job_and_join := fun _ _ => Ok tt;
     time_elapsed := "0.1";
     script_name := "dx_environment.py" |}.

(** The collaborators of [main] when the session, the log and the
    configuration are fine and [fan_out] is what starting and joining the
    engine threads does. *)
Definition lib_fan_out (fan_out : Result unit) : Lib :=
  {| GetSession := Ok tt;
     logging_est := fun _ => Ok tt;
     get_config := fun _ => Ok tt;
     run_job_and_join := fun _ _ => fan_out;
     time_elapsed := "0.1";
     script_name := "dx_environment.py" |}.

(** The options that the usage text of the script declares, as for
    [dx_environment.py --list]. *)
Definition usage_arguments : gmap string value :=
  list_to_map
    [("--type", VNone); ("--env_name", VNone); ("--host_user", VNone);
     ("--ip", VNone); ("--toolkit", VNone); ("--ase_user", VNone);
     ("--ase_pw", VNone); ("--update_ase_pw", VNone);
     ("--update_ase_user", VNone); ("--delete", VNone);
     ("--refresh", VNone); ("--list", VBool true);
     ("--logdir", VStr "./dx_environment.log"); ("--debug", VBool false);
     ("--config", VStr "./dxtools.conf"); ("--connector_name", VNone);
     ("--passwd", VNone); ("--engine", VNone); ("--all", VBool false);
     ("--poll", VStr "10"); ("--update_host", VBool false);
     ("--old_host_address", VNone); ("--new_host_address", VNone);
     ("--enable", VBool false); ("--disable", VBool false);
     ("--parallel", VNone); ("--help", VBool false);
     ("--version", VBool false)].

(** The same with the key that [main] also reads. *)
Definition arguments : gmap string value :=
  <["--single_thread" := VBool false]> usage_arguments.

(** The engine of [quiet] behind lookups that raise for a name that is
    not there. *)
Definition strict : Vendor :=
  {| not_found_is_dlpx := true;
     engines_key0 := engines_key0 quiet;
     respond := respond quiet;
     get_all := get_all quiet;
     find_env_by_name := fun _ v =>
       match find (name_is Env.name v) two_envs with
       | Some o => Ok (Some o)
       | None => Raise (DlpxException "Object not found")
       end;
     find_host_by_name := fun _ v =>
       match find (name_is Host.name v) two_hosts with
       | Some o => Ok (Some o)
       | None => Raise (DlpxException "Object not found")
       end;
     find_all_envs := find_all_envs quiet;
     find_obj_name := find_obj_name quiet;
     str_undef := str_undef quiet;
     str_obj := str_obj quiet |}.

(** A context manager that does nothing and suppresses nothing. *)
Definition plain_manager : ContextManager :=
  {| cm_enter := ret tt; cm_exit := fun _ => ret false |}.

(** A context manager that suppresses whatever leaves the block. *)
Definition suppressing_manager : ContextManager :=
  {| cm_enter := ret tt; cm_exit := fun _ => ret true |}.

(** The poller has waited for every job and cleared the mapping. *)
Definition jobs_done : gmap string value -> M unit :=
  fun _ s =>
    (Ok tt, {| calls := calls s; last_job := last_job s; jobs := ∅;
               log := log s; stdout := stdout s |}).

(** The poller comes back while jobs are still listed. *)
Definition jobs_pending : gmap string value -> M unit := fun _ => ret tt.

(** The session methods: [login] is what authenticating does. *)
Definition runner (login : Result unit)
    (poll : gmap string value -> M unit) : Runner :=
  {| dlpx_session := fun _ _ _ => lift login;
     job_mode := fun _ => ret plain_manager;
     find_job_state := poll |}.

(** An entry of the engines of [dxtools.conf]. *)
Definition engine_entry : gmap string value :=
  list_to_map
    [("ip_address", VStr "10.0.1.10"); ("username", VStr "delphix_admin");
     ("password", VStr "delphix"); ("hostname", VStr "landsharkengine")].

(** [dx_environment.py --delete SOURCE] *)
Definition delete_arguments : gmap string value :=
  <["--delete" := VStr "SOURCE"]> (<["--list" := VBool false]> usage_arguments).

(** [dx_environment.py --type linux --env_name test1 --host_user delphix
    --ip 182.1.1.1 --toolkit /var/opt/delphix --ase_user sa --ase_pw secret] *)
Definition linux_ase_arguments : gmap string value :=
  <["--type" := VStr "linux"]>
    (<["--env_name" := VStr "test1"]>
       (<["--host_user" := VStr "delphix"]>
          (<["--ip" := VStr "182.1.1.1"]>
             (<["--toolkit" := VStr "/var/opt/delphix"]>
                (<["--ase_user" := VStr "sa"]>
                   (<["--ase_pw" := VStr "secret"]>
                      (<["--list" := VBool false]> usage_arguments))))))).

(** [dx_environment.py --update_ase_pw newPasswd --env_name test1] *)
Definition update_ase_pw_arguments : gmap string value :=
  <["--update_ase_pw" := VStr "newPasswd"]>
    (<["--env_name" := VStr "test1"]>
       (<["--list" := VBool false]> usage_arguments)).

(** An environment of a kind that has no host. *)
Definition cluster_env : Env.t :=
  {| Env.name := "RAC"; Env.type := "OracleCluster";
     Env.reference := "ORACLE_CLUSTER-3"; Env.enabled := false;
     Env.primary_user := "HOST_USER-3"; Env.host := None;
     Env.ase_host_environment_parameters := None |}.

(** A Windows environment whose object came back without a host. *)
Definition hostless_env : Env.t :=
  {| Env.name := "TARGET"; Env.type := "WindowsHostEnvironment";
     Env.reference := "WINDOWS_HOST_ENVIRONMENT-4"; Env.enabled := true;
     Env.primary_user := "HOST_USER-4"; Env.host := None;
     Env.ase_host_environment_parameters := None |}.

End Mock.

(** ** Notions used in the statements *)

(** The value that [linux_env_params] computes. *)
Definition linux_request
    (env_name host_user ip_addr toolkit_path passwd ase_user ase_pw : value)
    : value :=
  VObj "HostEnvironmentCreateParameters"
    [("host_environment",
      VObj "UnixHostEnvironment"
        (("name", env_name) ::
         if truthy ase_user then
           [("ase_host_environment_parameters",
             VObj "ASEHostEnvironmentParameters"
               [("db_user", ase_user);
                ("credentials",
                 VDict [("type", VStr "PasswordCredential");
                        ("password", ase_pw)])])]
         else []));
     ("primary_user",
      VObj "EnvironmentUser"
        [("name", host_user);
         ("credential",
          if is_None passwd then VObj "SystemKeyCredential" []
          else VObj "PasswordCredential" [("password", passwd)])]);
     ("host_parameters",
      VDict [("host", VDict [("address", ip_addr);
                             ("type", VStr "UnixHost");
                             ("name", env_name);
                             ("toolkitPath", toolkit_path)])])].

(** The value that [windows_env_params] computes, [extra] being what is
    assigned to the host environment afterwards. *)
Definition windows_request (env_name host_user ip_addr passwd : value)
    (extra : list (string * value)) : value :=
  VObj "HostEnvironmentCreateParameters"
    [("primary_user",
      VObj "EnvironmentUser"
        [("name", host_user);
         ("credential", VObj "PasswordCredential" [("password", passwd)])]);
     ("host_parameters",
      VObj "WindowsHostCreateParameters"
        [("host", VObj "WindowsHost" [("connector_port", VInt 9100);
                                      ("address", ip_addr)]);
         ("name", env_name)]);
     ("host_environment",
      VObj "WindowsHostEnvironment" (("name", env_name) :: extra))].

(** The refresh calls for a list of environments, in order. *)
Definition refresh_calls (envs : list Env.t) : list Call :=
  map (fun o => environment_refresh (Env.reference o)) envs.

(** A computation that leaves [dlpx_obj.jobs] alone, whatever it returns. *)
Definition keeps_jobs {A} (m : M A) : Prop :=
  forall s, jobs (snd (m s)) = jobs s.

(** After a run from [s], the mapping holds the last job under
    [engine_name], unless neither the mapping nor the last job moved. *)
Definition job_stored (engine_name : string) (s s' : Session) : Prop :=
  (jobs s' = jobs s /\ last_job s' = last_job s) \/
  jobs s' = <[engine_name := last_job s']> (jobs s).

(** A computation that leaves the component [f] of the session alone,
    whatever it returns. *)
Definition keeps {A B} (f : Session -> B) (m : M A) : Prop :=
  forall s, f (snd (m s)) = f s.

(** A computation whose vendor calls all satisfy [P]. *)
Definition only_calls {A} (P : Call -> Prop) (m : M A) : Prop :=
  forall s, exists l, calls (snd (m s)) = calls s ++ l /\ Forall P l.

(** A computation that issues no vendor call or one. *)
Definition at_most_one_call {A} (m : M A) : Prop :=
  forall s,
    calls (snd (m s)) = calls s \/ exists c, calls (snd (m s)) = calls s ++ [c].

(** The SDK function that a call goes to. *)
Definition call_kind (c : Call) : string :=
  match c with
  | environment_enable _ => "environment.enable"
  | environment_disable _ => "environment.disable"
  | environment_delete _ => "environment.delete"
  | environment_refresh _ => "environment.refresh"
  | environment_create _ => "environment.create"
  | environment_get_all => "environment.get_all"
  | host_update _ _ => "host.update"
  end.

(** A call that carries no ASE parameters. *)
Definition no_ase (c : Call) : Prop :=
  match c with
  | environment_create req =>
      getattr_path req ["host_environment"; "ase_host_environment_parameters"]
      = Raise (AttributeError "ase_host_environment_parameters")
  | _ => True
  end.

(** The keys of [ARGUMENTS] that [main_workflow_action] reads. *)
Definition action_keys : list string :=
  ["--env_name"; "--host_user"; "--passwd"; "--ip"; "--type";
   "--connector_name"; "--toolkit"; "--delete"; "--refresh"; "--list";
   "--update_host"; "--old_host_address"; "--new_host_address"; "--enable";
   "--disable"].

(** The classes that [main] has a clause for. *)
Definition main_classes : list exn_class :=
  [CSystemExit; CDlpxException; CHttpError; CJobError; CKeyboardInterrupt].

(** The body of the [try] of [main] raises [e]: one of its four calls
    raises it, the calls before it have returned and the keys of
    [ARGUMENTS] read up to there are present. *)
Inductive try_body_raises (L : Lib) (ARGUMENTS : gmap string value) (e : exn)
    : Prop :=
| raises_GetSession :
    GetSession L = Raise e ->
    try_body_raises L ARGUMENTS e
| raises_logging_est logdir :
    GetSession L = Ok tt ->
    ARGUMENTS !! "--logdir" = Some logdir ->
    logging_est L logdir = Raise e ->
    try_body_raises L ARGUMENTS e
| raises_get_config logdir config_file_path single_thread engine :
    GetSession L = Ok tt ->
    ARGUMENTS !! "--logdir" = Some logdir ->
    logging_est L logdir = Ok tt ->
    ARGUMENTS !! "--config" = Some config_file_path ->
    ARGUMENTS !! "--single_thread" = Some single_thread ->
    ARGUMENTS !! "--engine" = Some engine ->
    get_config L config_file_path = Raise e ->
    try_body_raises L ARGUMENTS e
| raises_run_job logdir config_file_path single_thread engine :
    GetSession L = Ok tt ->
    ARGUMENTS !! "--logdir" = Some logdir ->
    logging_est L logdir = Ok tt ->
    ARGUMENTS !! "--config" = Some config_file_path ->
    ARGUMENTS !! "--single_thread" = Some single_thread ->
    ARGUMENTS !! "--engine" = Some engine ->
    get_config L config_file_path = Ok tt ->
    run_job_and_join L engine single_thread = Raise e ->
    try_body_raises L ARGUMENTS e.

(** The four calls of the body of the [try] of [main] return, the keys
    that it reads being present. *)
Definition try_body_returns (L : Lib) (ARGUMENTS : gmap string value) : Prop :=
  exists logdir config_file_path single_thread engine,
    GetSession L = Ok tt /\
    ARGUMENTS !! "--logdir" = Some logdir /\
    logging_est L logdir = Ok tt /\
    ARGUMENTS !! "--config" = Some config_file_path /\
    ARGUMENTS !! "--single_thread" = Some single_thread /\
    ARGUMENTS !! "--engine" = Some engine /\
    get_config L config_file_path = Ok tt /\
    run_job_and_join L engine single_thread = Ok tt.

(** * Properties *)

(** ** Concrete runs *)

Example list_env_prints :
  list_env Mock.quiet Mock.start
  = (Ok tt,
     with_stdout
       "Environment Name: CONNECTOR, Username: HOST_USER-2, Host: WINDOWS_HOST-2,Enabled: True"
       (with_stdout
          "Environment Name: SOURCE, Username: HOST_USER-1, Host: UNIX_HOST-1, Enabled: True, ASE Environment Params: Undefined"
          (with_call environment_get_all Mock.start))).
Proof. reflexivity. Qed.

Example delete_env_found :
  fst (delete_env Mock.quiet (VStr "SOURCE") Mock.start) = Ok tt /\
  calls (snd (delete_env Mock.quiet (VStr "SOURCE") Mock.start))
  = [environment_delete "UNIX_HOST_ENVIRONMENT-1"] /\
  jobs (snd (delete_env Mock.quiet (VStr "SOURCE") Mock.start))
    !! "landsharkengine" = Some (VStr "JOB-0").
Proof. vm_compute. repeat split. Qed.

Example enable_environment_unknown_name :
  enable_environment Mock.quiet (VStr "ghost") Mock.start
  = (Raise (AttributeError "reference"), Mock.start).
Proof. reflexivity. Qed.

Example update_host_address_logs :
  update_host_address
    (Mock.failing (host_update "" VNone) (RequestError "denied"))
    (VStr "10.0.1.20") (VStr "10.0.3.20") Mock.start
  = (Ok tt,
     with_log ("ERROR: Updating the host <undef> encountered an error:" +:+
               nl +:+ "denied")
       (with_call
          (host_update "UNIX_HOST-1"
             (VObj "UnixHost" [("address", VStr "10.0.3.20")]))
          Mock.start)).
Proof. reflexivity. Qed.

Example main_keyboard_interrupt :
  main Mock.quiet (Mock.lib (Raise KeyboardInterrupt)) Mock.arguments
    Mock.start
  = (Ok tt,
     with_log "dx_environment.py took 0.1 minutes to get this far."
       (with_log "You sent a CTRL+C to interrupt the process" Mock.start)).
Proof. reflexivity. Qed.

(** ** The monad *)

Lemma bind_ret_l {A B} (a : A) (k : A -> M B) s : bind (ret a) k s = k a s.
Proof. reflexivity. Qed.

Lemma bind_ret_r {A} (m : M A) s : bind m ret s = m s.
Proof. unfold bind, ret. now destruct (m s) as [[a|e] s']. Qed.

Lemma bind_assoc {A B C} (m : M A) (k : A -> M B) (h : B -> M C) s :
  bind (bind m k) h s = bind m (fun a => bind (k a) h) s.
Proof. unfold bind. now destruct (m s) as [[a|e] s']. Qed.

(** An exception ends the rest of the block, and the session stays as the
    raising step left it. *)
Lemma bind_raise_l {A B} e (k : A -> M B) s : bind (raise e) k s = (Raise e, s).
Proof. reflexivity. Qed.

(** ** The engine name *)

(** The four functions that record a job start by reading the engine
    name; when that fails nothing else happens. *)
Lemma engine_name_failure V e s :
  engines_key0 V = Raise e ->
  (forall env_name, delete_env V env_name s = (Raise e, s)) /\
  (forall env_name, refresh_env V env_name s = (Raise e, s)) /\
  (forall env_name host_user ip_addr toolkit_path passwd ase_user ase_pw,
     create_linux_env V env_name host_user ip_addr toolkit_path passwd ase_user
       ase_pw s = (Raise e, s)) /\
  (forall env_name host_user ip_addr passwd connector_name,
     create_windows_env V env_name host_user ip_addr passwd connector_name s
     = (Raise e, s)).
Proof.
  intros Hk. repeat apply conj; intros;
    unfold delete_env, refresh_env, create_linux_env, create_windows_env,
      first_engine_name, lift;
    unfold bind at 1; now rewrite Hk.
Qed.

(** ** The request of create_linux_env *)

(** The construction never raises, whatever the arguments. *)
Lemma linux_env_params_eq V env_name host_user ip_addr toolkit_path passwd
    ase_user ase_pw :
  linux_env_params V env_name host_user ip_addr toolkit_path passwd ase_user
    ase_pw
  = Ok (linux_request env_name host_user ip_addr toolkit_path passwd ase_user
          ase_pw).
Proof.
  unfold linux_env_params, linux_request.
  destruct (is_None passwd), (truthy ase_user); reflexivity.
Qed.

(** With an engine name at hand, [create_linux_env] issues one call: the
    create call, with the request above. *)
Lemma create_linux_env_calls V s engine env_name host_user ip_addr toolkit_path
    passwd ase_user ase_pw :
  engines_key0 V = Ok engine ->
  calls (snd (create_linux_env V env_name host_user ip_addr toolkit_path passwd
                ase_user ase_pw s))
  = calls s ++ [environment_create
                  (linux_request env_name host_user ip_addr toolkit_path passwd
                     ase_user ase_pw)].
Proof.
  intros Hk. unfold create_linux_env, first_engine_name, lift.
  unfold bind at 1. rewrite Hk.
  unfold bind at 1. rewrite linux_env_params_eq.
  unfold try_except, bind, vendor_call.
  destruct (respond V (calls s) _) as [j|e]; [reflexivity|].
  cbn [select_handler].
  destruct (catches _ [CDlpxException; CRequestError; CHttpError] e);
    [reflexivity|].
  destruct (catches _ [CJobError] e); reflexivity.
Qed.

(** ** create_linux_env *)

(** C2.  In the request that [create_linux_env] passes to the create call,
    the credential of the primary user is a [SystemKeyCredential] when
    [passwd] is [None], and otherwise a [PasswordCredential] whose password
    is [passwd]. *)
Theorem create_linux_env_credential V s engine env_name host_user ip_addr
    toolkit_path passwd ase_user ase_pw :
  engines_key0 V = Ok engine ->
  exists req,
    calls (snd (create_linux_env V env_name host_user ip_addr toolkit_path
                  passwd ase_user ase_pw s))
    = calls s ++ [environment_create req] /\
    (passwd = VNone ->
     getattr_path req ["primary_user"; "credential"]
     = Ok (new "SystemKeyCredential")) /\
    (passwd <> VNone ->
     getattr_path req ["primary_user"; "credential"]
     = Ok (VObj "PasswordCredential" [("password", passwd)])).
Proof.
  intros Hk. eexists. split.
  - eapply create_linux_env_calls, Hk.
  - split; intros Hp.
    + subst passwd. reflexivity.
    + destruct passwd; try reflexivity. contradiction.
Qed.

Lemma create_linux_env_credential_witness :
  (exists req,
     calls (snd (create_linux_env (Mock.engine [] [] Mock.never)
                   (VStr "test1") (VStr "delphix") (VStr "182.1.1.1")
                   (VStr "/var/opt/delphix") VNone VNone VNone Mock.start))
     = [environment_create req] /\
     getattr_path req ["primary_user"; "credential"]
     = Ok (new "SystemKeyCredential")) /\
  (exists req,
     calls (snd (create_linux_env (Mock.engine [] [] Mock.never)
                   (VStr "test1") (VStr "delphix") (VStr "182.1.1.1")
                   (VStr "/var/opt/delphix") (VStr "secret") VNone VNone
                   Mock.start))
     = [environment_create req] /\
     getattr_path req ["primary_user"; "credential"]
     = Ok (VObj "PasswordCredential" [("password", VStr "secret")])).
Proof.
  split.
  - destruct (create_linux_env_credential (Mock.engine [] [] Mock.never)
                Mock.start "landsharkengine" (VStr "test1") (VStr "delphix")
                (VStr "182.1.1.1") (VStr "/var/opt/delphix") VNone VNone VNone
                eq_refl) as (req & Hc & Hkey & _).
    exists req. split; [exact Hc | apply Hkey; reflexivity].
  - destruct (create_linux_env_credential (Mock.engine [] [] Mock.never)
                Mock.start "landsharkengine" (VStr "test1") (VStr "delphix")
                (VStr "182.1.1.1") (VStr "/var/opt/delphix") (VStr "secret")
                VNone VNone eq_refl) as (req & Hc & _ & Hpw).
    exists req. split; [exact Hc | apply Hpw; discriminate].
Defined.

(** C9.  The request passed to the create call has exactly three
    attributes.  Its [host_environment] is the [UnixHostEnvironment] built
    last, holding the environment name and, when an ASE user is given, the
    ASE parameters, and nothing else: it has no [host], so the address and
    the toolkit path assigned to [host_environment.host] before are gone.
    Both are found in the [host_parameters] dictionary, and the primary
    user holds a name and a credential only. *)
Theorem create_linux_env_host_environment V s engine env_name host_user ip_addr
    toolkit_path passwd ase_user ase_pw :
  engines_key0 V = Ok engine ->
  exists req ase cred,
    calls (snd (create_linux_env V env_name host_user ip_addr toolkit_path
                  passwd ase_user ase_pw s))
    = calls s ++ [environment_create req] /\
    req = VObj "HostEnvironmentCreateParameters"
            [("host_environment",
              VObj "UnixHostEnvironment" (("name", env_name) :: ase));
             ("primary_user",
              VObj "EnvironmentUser"
                [("name", host_user); ("credential", cred)]);
             ("host_parameters",
              VDict [("host", VDict [("address", ip_addr);
                                     ("type", VStr "UnixHost");
                                     ("name", env_name);
                                     ("toolkitPath", toolkit_path)])])] /\
    (ase = [] \/
     exists p, ase = [("ase_host_environment_parameters",
                       VObj "ASEHostEnvironmentParameters" p)]) /\
    (cred = VObj "SystemKeyCredential" [] \/
     cred = VObj "PasswordCredential" [("password", passwd)]) /\
    getattr_path req ["host_environment"; "host"]
    = Raise (AttributeError "host").
Proof.
  intros Hk.
  exists (linux_request env_name host_user ip_addr toolkit_path passwd ase_user
            ase_pw).
  exists (if truthy ase_user then
            [("ase_host_environment_parameters",
              VObj "ASEHostEnvironmentParameters"
                [("db_user", ase_user);
                 ("credentials",
                  VDict [("type", VStr "PasswordCredential");
                         ("password", ase_pw)])])]
          else []).
  exists (if is_None passwd then VObj "SystemKeyCredential" []
          else VObj "PasswordCredential" [("password", passwd)]).
  split; [eapply create_linux_env_calls, Hk|].
  split; [reflexivity|].
  split; [destruct (truthy ase_user); eauto|].
  split; [destruct (is_None passwd); auto|].
  unfold linux_request. destruct (truthy ase_user); reflexivity.
Qed.

Lemma create_linux_env_host_environment_witness :
  exists req,
    calls (snd (create_linux_env (Mock.engine [] [] Mock.never)
                  (VStr "test1") (VStr "delphix") (VStr "182.1.1.1")
                  (VStr "/var/opt/delphix") (VStr "secret") VNone VNone
                  Mock.start))
    = [environment_create req] /\
    getattr_path req ["host_environment"; "host"]
    = Raise (AttributeError "host").
Proof.
  destruct (create_linux_env_host_environment (Mock.engine [] [] Mock.never)
              Mock.start "landsharkengine" (VStr "test1") (VStr "delphix")
              (VStr "182.1.1.1") (VStr "/var/opt/delphix") (VStr "secret")
              VNone VNone eq_refl) as (req & ase & cred & Hc & _ & _ & _ & Hh).
  exists req. split; [exact Hc | exact Hh].
Defined.

(** What [create_linux_env] returns, by the outcome of the create call. *)
Lemma create_linux_env_run V s engine env_name host_user ip_addr toolkit_path
    passwd ase_user ase_pw :
  engines_key0 V = Ok engine ->
  let c := environment_create
             (linux_request env_name host_user ip_addr toolkit_path passwd
                ase_user ase_pw) in
  create_linux_env V env_name host_user ip_addr toolkit_path passwd ase_user
    ase_pw s
  = match respond V (calls s) c with
    | Ok j => (Ok tt, with_job engine j (with_last_job j (with_call c s)))
    | Raise e =>
        if catches (not_found_is_dlpx V)
             [CDlpxException; CRequestError; CHttpError] e
        then (Raise (DlpxException
                ("ERROR: Encountered an exception while creating the environment:"
                 +:+ nl +:+ str_exn e)), with_call c s)
        else if catches (not_found_is_dlpx V) [CJobError] e
        then (Raise (DlpxException
                ("JobError while creating environment:" +:+ nl +:+ str_exn e)),
              with_call c s)
        else (Raise e, with_call c s)
    end.
Proof.
  intros Hk c. unfold create_linux_env, first_engine_name, lift.
  unfold bind at 1. rewrite Hk.
  unfold bind at 1. rewrite linux_env_params_eq.
  unfold try_except, bind, vendor_call. fold c.
  destruct (respond V (calls s) c) as [j|e]; [reflexivity|].
  cbn [select_handler].
  destruct (catches _ [CDlpxException; CRequestError; CHttpError] e);
    [reflexivity|].
  destruct (catches _ [CJobError] e); reflexivity.
Qed.

(** C10.  The [except KeyError] clause of [create_linux_env] is never
    taken: the construction of the request returns for every input, the
    function never raises the [DlpxException] of that clause, and with an
    ASE user the credentials are built with whatever [ase_pw] is, [None]
    included. *)
Theorem create_linux_env_ase_guard_dead V s engine env_name host_user ip_addr
    toolkit_path passwd ase_user ase_pw :
  engines_key0 V = Ok engine ->
  (exists req,
     linux_env_params V env_name host_user ip_addr toolkit_path passwd ase_user
       ase_pw = Ok req /\
     calls (snd (create_linux_env V env_name host_user ip_addr toolkit_path
                   passwd ase_user ase_pw s))
     = calls s ++ [environment_create req] /\
     (truthy ase_user = true ->
      getattr_path req
        ["host_environment"; "ase_host_environment_parameters"; "credentials"]
      = Ok (VDict [("type", VStr "PasswordCredential");
                   ("password", ase_pw)]))) /\
  fst (create_linux_env V env_name host_user ip_addr toolkit_path passwd
         ase_user ase_pw s)
  <> Raise (DlpxException
              ("--ase_user and --ase_pw ARGUMENTS are required for ASE DBs"
               +:+ nl)).
Proof.
  intros Hk. split.
  - eexists. split; [apply linux_env_params_eq|].
    split; [eapply create_linux_env_calls, Hk|].
    intros Hu. unfold linux_request. rewrite Hu. reflexivity.
  - rewrite (create_linux_env_run _ _ _ _ _ _ _ _ _ _ Hk).
    destruct (respond V (calls s) _) as [j|e]; [discriminate|].
    destruct (catches _ [CDlpxException; CRequestError; CHttpError] e) eqn:E1;
      [discriminate|].
    destruct (catches _ [CJobError] e) eqn:E2; [discriminate|].
    destruct e; cbn in E1; try discriminate.
Qed.

Lemma create_linux_env_ase_guard_dead_witness :
  exists req,
    calls (snd (create_linux_env (Mock.engine [] [] Mock.never)
                  (VStr "test1") (VStr "delphix") (VStr "182.1.1.1")
                  (VStr "/var/opt/delphix") (VStr "delphix") (VStr "sa") VNone
                  Mock.start))
    = [environment_create req] /\
    getattr_path req
      ["host_environment"; "ase_host_environment_parameters"; "credentials"]
    = Ok (VDict [("type", VStr "PasswordCredential"); ("password", VNone)]).
Proof.
  destruct (create_linux_env_ase_guard_dead (Mock.engine [] [] Mock.never)
              Mock.start "landsharkengine" (VStr "test1") (VStr "delphix")
              (VStr "182.1.1.1") (VStr "/var/opt/delphix") (VStr "delphix")
              (VStr "sa") VNone eq_refl) as ((req & _ & Hc & Hcred) & _).
  exists req. split; [exact Hc | apply Hcred; reflexivity].
Defined.

(** ** create_windows_env *)

Lemma windows_env_params_eq env_name host_user ip_addr passwd :
  windows_env_params env_name host_user ip_addr passwd
  = Ok (windows_request env_name host_user ip_addr passwd []).
Proof. reflexivity. Qed.

(** Without a connector object nothing is sent: the function raises
    [DlpxObjectNotFound] and the session is as before. *)
Lemma create_windows_env_no_connector V s engine env_name host_user ip_addr
    passwd connector_name :
  engines_key0 V = Ok engine ->
  truthy connector_name = false \/
  find_env_by_name V (calls s) connector_name = Ok None ->
  create_windows_env V env_name host_user ip_addr passwd connector_name s
  = (Raise (DlpxObjectNotFound
              ("Host was not found in the Engine: " +:+ str V connector_name)),
     s).
Proof.
  intros Hk Hc. unfold create_windows_env, first_engine_name, lift.
  unfold bind at 1. rewrite Hk.
  unfold bind at 1. rewrite windows_env_params_eq.
  unfold bind at 1.
  destruct (truthy connector_name) eqn:Ht.
  - destruct Hc as [Hc|Hc]; [discriminate|].
    unfold find_obj_by_name_environment. rewrite Hc. reflexivity.
  - reflexivity.
Qed.

(** With a connector that has a host, the create call is issued with the
    proxy set. *)
Lemma create_windows_env_calls V s engine env_name host_user ip_addr passwd
    connector_name o h :
  engines_key0 V = Ok engine ->
  truthy connector_name = true ->
  find_env_by_name V (calls s) connector_name = Ok (Some o) ->
  Env.host o = Some h ->
  let c := environment_create
             (windows_request env_name host_user ip_addr passwd
                [("proxy", VStr h)]) in
  create_windows_env V env_name host_user ip_addr passwd connector_name s
  = match respond V (calls s) c with
    | Ok j => (Ok tt, with_job engine j (with_last_job j (with_call c s)))
    | Raise e =>
        if catches (not_found_is_dlpx V)
             [CDlpxException; CRequestError; CHttpError] e
        then (Raise (DlpxException
                ("ERROR: Encountered an exception while creating the environment:"
                 +:+ nl +:+ str_exn e)), with_call c s)
        else (Raise e, with_call c s)
    end.
Proof.
  intros Hk Ht Hf Hh c. unfold create_windows_env, first_engine_name, lift.
  unfold bind at 1. rewrite Hk.
  unfold bind at 1. rewrite windows_env_params_eq.
  unfold bind at 1. rewrite Ht.
  unfold find_obj_by_name_environment. rewrite Hf.
  unfold bind at 1. unfold attr_of, bind at 1. rewrite Hh.
  cbn [ret id]. unfold lift.
  change (setattr_path _ ["host_environment"] "proxy" (VStr h))
    with (Ok (windows_request env_name host_user ip_addr passwd
                [("proxy", VStr h)])).
  cbv beta iota.
  unfold try_except, bind, vendor_call. fold c.
  destruct (respond V (calls s) c) as [j|e]; [reflexivity|].
  cbn [select_handler].
  destruct (catches _ [CDlpxException; CRequestError; CHttpError] e);
    reflexivity.
Qed.

(** C3.  Without a connector name [create_windows_env] raises the "not
    found" exception and issues no call; with a name that resolves to an
    environment, the request sent has [host_environment.proxy] set to that
    environment's host. *)
Theorem create_windows_env_connector V s engine env_name host_user ip_addr
    passwd connector_name :
  engines_key0 V = Ok engine ->
  (connector_name = VNone ->
   create_windows_env V env_name host_user ip_addr passwd connector_name s
   = (Raise (DlpxObjectNotFound "Host was not found in the Engine: None"), s))
  /\
  (forall o h,
     truthy connector_name = true ->
     find_env_by_name V (calls s) connector_name = Ok (Some o) ->
     Env.host o = Some h ->
     exists req,
       calls (snd (create_windows_env V env_name host_user ip_addr passwd
                     connector_name s))
       = calls s ++ [environment_create req] /\
       getattr_path req ["host_environment"; "proxy"] = Ok (VStr h)).
Proof.
  intros Hk. split.
  - intros ->.
    rewrite (create_windows_env_no_connector _ _ _ _ _ _ _ _ Hk);
      [reflexivity | now left].
  - intros o h Ht Hf Hh. eexists. split.
    + rewrite (create_windows_env_calls _ _ _ _ _ _ _ _ _ _ Hk Ht Hf Hh).
      destruct (respond V (calls s) _) as [j|e]; [reflexivity|].
      destruct (catches _ _ e); reflexivity.
    + reflexivity.
Qed.

Lemma create_windows_env_connector_witness :
  create_windows_env (Mock.engine [Mock.windows_env] [] Mock.never)
    (VStr "SOURCE") (VStr "administrator") (VStr "10.0.1.50") (VStr "secret")
    VNone Mock.start
  = (Raise (DlpxObjectNotFound "Host was not found in the Engine: None"),
     Mock.start)
  /\
  exists req,
    calls (snd (create_windows_env
                  (Mock.engine [Mock.windows_env] [] Mock.never)
                  (VStr "SOURCE") (VStr "administrator") (VStr "10.0.1.50")
                  (VStr "secret") (VStr "CONNECTOR") Mock.start))
    = [environment_create req] /\
    getattr_path req ["host_environment"; "proxy"]
    = Ok (VStr "WINDOWS_HOST-2").
Proof.
  split.
  - apply (create_windows_env_connector
             (Mock.engine [Mock.windows_env] [] Mock.never) Mock.start
             "landsharkengine" (VStr "SOURCE") (VStr "administrator")
             (VStr "10.0.1.50") (VStr "secret") VNone eq_refl).
    reflexivity.
  - apply (proj2 (create_windows_env_connector
                    (Mock.engine [Mock.windows_env] [] Mock.never) Mock.start
                    "landsharkengine" (VStr "SOURCE") (VStr "administrator")
                    (VStr "10.0.1.50") (VStr "secret") (VStr "CONNECTOR")
                    eq_refl)
             Mock.windows_env "WINDOWS_HOST-2"); reflexivity.
Defined.

(** ** delete_env *)

(** C1.  When the lookup answers [None], [delete_env] issues no call and
    leaves the session, the job mapping included, as it was; but it
    returns normally: the [DlpxObjectNotFound] it builds is not raised. *)
Theorem delete_env_unresolved V s engine env_name :
  engines_key0 V = Ok engine ->
  find_env_by_name V (calls s) env_name = Ok None ->
  delete_env V env_name s = (Ok tt, s).
Proof.
  intros Hk Hf. unfold delete_env, first_engine_name, lift.
  unfold bind at 1. rewrite Hk.
  unfold bind at 1, find_obj_by_name_environment. rewrite Hf.
  reflexivity.
Qed.

Lemma delete_env_unresolved_witness :
  delete_env (Mock.engine [Mock.unix_env] [] Mock.never) (VStr "ghost")
    Mock.start
  = (Ok tt, Mock.start).
Proof.
  apply (delete_env_unresolved (Mock.engine [Mock.unix_env] [] Mock.never)
           Mock.start "landsharkengine" (VStr "ghost")); reflexivity.
Defined.

(** A lookup that raises is not handled: its exception leaves
    [delete_env] as it is, and nothing is sent. *)
Lemma delete_env_lookup_raises V s engine env_name e :
  engines_key0 V = Ok engine ->
  find_env_by_name V (calls s) env_name = Raise e ->
  delete_env V env_name s = (Raise e, s).
Proof.
  intros Hk Hf. unfold delete_env, first_engine_name, lift.
  unfold bind at 1. rewrite Hk.
  unfold bind at 1, find_obj_by_name_environment. rewrite Hf.
  reflexivity.
Qed.

(** What [delete_env] does for an environment that is found. *)
Lemma delete_env_run V s engine env_name o :
  engines_key0 V = Ok engine ->
  find_env_by_name V (calls s) env_name = Ok (Some o) ->
  let c := environment_delete (Env.reference o) in
  delete_env V env_name s
  = match respond V (calls s) c with
    | Ok j => (Ok tt, with_job engine j (with_last_job j (with_call c s)))
    | Raise e => (Raise e, with_call c s)
    end.
Proof.
  intros Hk Hf c. unfold delete_env, first_engine_name, lift.
  unfold bind at 1. rewrite Hk.
  unfold bind at 1, find_obj_by_name_environment. rewrite Hf.
  unfold bind, vendor_call. fold c.
  destruct (respond V (calls s) c); reflexivity.
Qed.

(** ** update_host_address *)

(** What [update_host_address] does for a host that is found. *)
Lemma update_host_address_run V s old_host_address new_host_address h :
  find_host_by_name V (calls s) old_host_address = Ok (Some h) ->
  let host_obj :=
    VObj (if String.eqb (Host.type h) "WindowsHost" then "WindowsHost"
          else "UnixHost") [("address", new_host_address)] in
  let c := host_update (Host.reference h) host_obj in
  update_host_address V old_host_address new_host_address s
  = match respond V (calls s) c with
    | Ok j => (Ok tt, with_last_job j (with_call c s))
    | Raise e =>
        if catches (not_found_is_dlpx V) [CDlpxException; CRequestError] e
        then (Ok tt,
              with_log ("ERROR: Updating the host " +:+ str_undef V +:+
                        " encountered an error:" +:+ nl +:+ str_exn e)
                (with_call c s))
        else (Raise e, with_call c s)
    end.
Proof.
  intros Hf host_obj c. unfold update_host_address.
  unfold bind at 1, find_obj_by_name_host. rewrite Hf.
  unfold attr_of, bind at 1, ret.
  subst c host_obj.
  destruct (String.eqb (Host.type h) "WindowsHost"); cbn [new setattr lift];
    unfold bind at 1, lift, try_except, bind, ret, vendor_call;
    (destruct (respond V (calls s) _) as [j|e]; [reflexivity|]);
    cbn [select_handler];
    destruct (catches _ [CDlpxException; CRequestError] e); reflexivity.
Qed.

(** C5.  When the old address resolves to a host, the object sent with the
    update call is a [WindowsHost] if the type of that host is
    ['WindowsHost'] and a [UnixHost] otherwise; its only attribute is the
    address, set to the new address. *)
Theorem update_host_address_request V s old_host_address new_host_address h :
  find_host_by_name V (calls s) old_host_address = Ok (Some h) ->
  exists host_obj,
    calls (snd (update_host_address V old_host_address new_host_address s))
    = calls s ++ [host_update (Host.reference h) host_obj] /\
    getattr host_obj "address" = Ok new_host_address /\
    (Host.type h = "WindowsHost" ->
     host_obj = VObj "WindowsHost" [("address", new_host_address)]) /\
    (Host.type h <> "WindowsHost" ->
     host_obj = VObj "UnixHost" [("address", new_host_address)]).
Proof.
  intros Hf. eexists. split; [|split; [|split]].
  - rewrite (update_host_address_run _ _ _ _ _ Hf).
    destruct (respond V (calls s) _) as [j|e]; [reflexivity|].
    destruct (catches _ _ e); reflexivity.
  - reflexivity.
  - intros Ht. rewrite Ht. reflexivity.
  - intros Ht. apply String.eqb_neq in Ht. rewrite Ht. reflexivity.
Qed.

Lemma update_host_address_request_witness :
  (exists host_obj,
     calls (snd (update_host_address
                   (Mock.engine [] [Mock.windows_host; Mock.unix_host]
                      Mock.never)
                   (VStr "10.0.1.60") (VStr "10.0.3.60") Mock.start))
     = [host_update "WINDOWS_HOST-2" host_obj] /\
     host_obj = VObj "WindowsHost" [("address", VStr "10.0.3.60")]) /\
  (exists host_obj,
     calls (snd (update_host_address
                   (Mock.engine [] [Mock.windows_host; Mock.unix_host]
                      Mock.never)
                   (VStr "10.0.1.20") (VStr "10.0.3.20") Mock.start))
     = [host_update "UNIX_HOST-1" host_obj] /\
     host_obj = VObj "UnixHost" [("address", VStr "10.0.3.20")]).
Proof.
  split.
  - destruct (update_host_address_request
                (Mock.engine [] [Mock.windows_host; Mock.unix_host] Mock.never)
                Mock.start (VStr "10.0.1.60") (VStr "10.0.3.60")
                Mock.windows_host eq_refl) as (host_obj & Hc & _ & Hw & _).
    exists host_obj. split; [exact Hc | apply Hw; reflexivity].
  - destruct (update_host_address_request
                (Mock.engine [] [Mock.windows_host; Mock.unix_host] Mock.never)
                Mock.start (VStr "10.0.1.20") (VStr "10.0.3.20")
                Mock.unix_host eq_refl) as (host_obj & Hc & _ & _ & Hu).
    exists host_obj. split; [exact Hc | apply Hu; discriminate].
Defined.

(** ** enable_environment, disable_environment *)



(** ** refresh_env *)

(** Refreshing one named environment. *)
Lemma refresh_env_named_run V s engine env_name o :
  engines_key0 V = Ok engine ->
  eq_str env_name "all" = false ->
  find_env_by_name V (calls s) env_name = Ok (Some o) ->
  let c := environment_refresh (Env.reference o) in
  refresh_env V env_name s
  = match respond V (calls s) c with
    | Ok j => (Ok tt, with_job engine j (with_last_job j (with_call c s)))
    | Raise e =>
        if catches (not_found_is_dlpx V) [CDlpxException; CRequestError] e
        then (Raise (DlpxException
                ("Refreshing " +:+ str V env_name +:+
                 " encountered an error:" +:+ nl +:+ str_exn e)),
              with_call c s)
        else (Raise e, with_call c s)
    end.
Proof.
  intros Hk Hn Hf c. unfold refresh_env, first_engine_name, lift.
  unfold bind at 1. rewrite Hk, Hn.
  unfold try_except.
  unfold bind at 1, find_obj_by_name_environment. rewrite Hf.
  unfold attr_of, bind, ret, vendor_call. fold c.
  destruct (respond V (calls s) c) as [j|e]; [reflexivity|].
  cbn [select_handler].
  destruct (catches _ [CDlpxException; CRequestError] e); reflexivity.
Qed.

(** One iteration of the loop over all environments. *)
Lemma refresh_env_iteration_run V s engine env_name o :
  let c := environment_refresh (Env.reference o) in
  refresh_env_iteration V engine env_name o s
  = match respond V (calls s) c with
    | Ok j => (Ok tt, with_job engine j (with_last_job j (with_call c s)))
    | Raise e =>
        if catches (not_found_is_dlpx V) [CDlpxException; CRequestError] e
        then (Ok tt, with_call c s)
        else (Raise e, with_call c s)
    end.
Proof.
  intros c. unfold refresh_env_iteration, try_except, bind, vendor_call.
  fold c.
  destruct (respond V (calls s) c) as [j|e]; [reflexivity|].
  cbn [select_handler].
  destruct (catches _ [CDlpxException; CRequestError] e); reflexivity.
Qed.

Lemma refresh_env_all_unfold V s engine env_name envs :
  engines_key0 V = Ok engine ->
  eq_str env_name "all" = true ->
  find_all_envs V (calls s) = Ok envs ->
  refresh_env V env_name s
  = for_each envs (refresh_env_iteration V engine env_name) s.
Proof.
  intros Hk Hn Hf. unfold refresh_env, first_engine_name, lift.
  unfold bind at 1. rewrite Hk, Hn.
  unfold bind at 1, find_all_objects_environment. rewrite Hf.
  reflexivity.
Qed.





(** ** Who writes the job mapping *)

Create HintDb frame.

Lemma keeps_jobs_ret {A} (a : A) : keeps_jobs (ret a).
Proof. now intros s. Qed.

Lemma keeps_jobs_raise {A} e : keeps_jobs (@raise A e).
Proof. now intros s. Qed.

Lemma keeps_jobs_lift {A} (r : Result A) : keeps_jobs (lift r).
Proof. now intros s. Qed.

Lemma keeps_jobs_bind {A B} (m : M A) (k : A -> M B) :
  keeps_jobs m -> (forall a, keeps_jobs (k a)) -> keeps_jobs (bind m k).
Proof.
  intros Hm Hk s. unfold bind. specialize (Hm s).
  destruct (m s) as [[a|e] s']; cbn in *.
  - now rewrite Hk.
  - exact Hm.
Qed.

Lemma keeps_jobs_select {A} nf (clauses : list (list exn_class * (exn -> M A)))
    e h :
  Forall (fun cl => forall e, keeps_jobs (snd cl e)) clauses ->
  select_handler nf clauses e = Some h -> keeps_jobs h.
Proof.
  induction 1 as [|[classes h'] rest Hh _ IH]; cbn; [discriminate|].
  destruct (catches nf classes e).
  - intros [= <-]. apply Hh.
  - exact IH.
Qed.

Lemma keeps_jobs_try_except {A} nf (body : M A) clauses :
  keeps_jobs body ->
  Forall (fun cl => forall e, keeps_jobs (snd cl e)) clauses ->
  keeps_jobs (try_except nf body clauses).
Proof.
  intros Hb Hc s. unfold try_except. specialize (Hb s).
  destruct (body s) as [[a|e] s']; cbn in *; [exact Hb|].
  destruct (select_handler nf clauses e) as [h|] eqn:Hs; [|exact Hb].
  rewrite (keeps_jobs_select _ _ _ _ Hc Hs s'). exact Hb.
Qed.

Lemma keeps_jobs_vendor_call V c : keeps_jobs (vendor_call V c).
Proof. intros s. unfold vendor_call. now destruct (respond V (calls s) c). Qed.

Lemma keeps_jobs_get_all V : keeps_jobs (environment_get_all_ V).
Proof. now intros s. Qed.

Lemma keeps_jobs_find_env V name :
  keeps_jobs (find_obj_by_name_environment V name).
Proof. now intros s. Qed.

Lemma keeps_jobs_find_host V name : keeps_jobs (find_obj_by_name_host V name).
Proof. now intros s. Qed.

Lemma keeps_jobs_find_obj_name V cls ref :
  keeps_jobs (find_obj_name_ V cls ref).
Proof. now intros s. Qed.

Lemma keeps_jobs_print_exception line : keeps_jobs (print_exception line).
Proof. now intros s. Qed.

Lemma keeps_jobs_print line : keeps_jobs (print line).
Proof. now intros s. Qed.

Lemma keeps_jobs_attr_of {O A} (obj : option O) a (proj : O -> A) :
  keeps_jobs (attr_of obj a proj).
Proof. destruct obj; now intros s. Qed.

#[export] Hint Resolve keeps_jobs_ret keeps_jobs_raise keeps_jobs_lift
  keeps_jobs_vendor_call keeps_jobs_get_all keeps_jobs_find_env
  keeps_jobs_find_host keeps_jobs_find_obj_name keeps_jobs_print_exception
  keeps_jobs_print keeps_jobs_attr_of : frame.

Ltac frame :=
  repeat first
    [ apply keeps_jobs_bind; [|intros ?]
    | apply keeps_jobs_try_except; [|repeat constructor; cbn [snd]; intros ?]
    | solve [auto with frame]
    | match goal with |- keeps_jobs (if ?b then _ else _) => destruct b end
    | match goal with |- keeps_jobs (match ?o with _ => _ end) => destruct o end ].

Lemma enable_environment_keeps_jobs V env_name :
  keeps_jobs (enable_environment V env_name).
Proof. unfold enable_environment. frame. Qed.

Lemma disable_environment_keeps_jobs V env_name :
  keeps_jobs (disable_environment V env_name).
Proof. unfold disable_environment. frame. Qed.

Lemma update_host_address_keeps_jobs V old_host_address new_host_address :
  keeps_jobs (update_host_address V old_host_address new_host_address).
Proof. unfold update_host_address. frame. Qed.

Lemma list_env_body_keeps_jobs V env env_host :
  keeps_jobs (list_env_body V env env_host).
Proof. unfold list_env_body. frame. Qed.

Lemma list_env_loop_keeps_jobs V all_envs :
  forall env_host, keeps_jobs (list_env_loop V all_envs env_host).
Proof.
  induction all_envs as [|env rest IH]; intros env_host; cbn [list_env_loop].
  - apply keeps_jobs_ret.
  - apply keeps_jobs_bind; [apply list_env_body_keeps_jobs | intros h; apply IH].
Qed.

Lemma list_env_keeps_jobs V : keeps_jobs (list_env V).
Proof.
  unfold list_env. apply keeps_jobs_bind; [auto with frame|].
  intros all_envs. apply list_env_loop_keeps_jobs.
Qed.

Lemma job_stored_trans engine_name s1 s2 s3 :
  job_stored engine_name s1 s2 -> job_stored engine_name s2 s3 ->
  job_stored engine_name s1 s3.
Proof.
  intros [[Hj Hl]|H12] [[Hj' Hl']|H23].
  - left. split; congruence.
  - right. now rewrite H23, Hj.
  - right. now rewrite Hj', Hl'.
  - right. rewrite H23, H12. apply insert_insert_eq.
Qed.

Lemma refresh_env_iteration_jobs V engine env_name o s :
  job_stored engine s (snd (refresh_env_iteration V engine env_name o s)).
Proof.
  rewrite refresh_env_iteration_run.
  destruct (respond V (calls s) _) as [j|e].
  - now right.
  - destruct (catches _ _ e); left; split; reflexivity.
Qed.

(** The loop over all environments, whether it runs to the end or not. *)
Lemma refresh_loop_jobs V engine env_name envs :
  forall s,
    job_stored engine s
      (snd (for_each envs (refresh_env_iteration V engine env_name) s)).
Proof.
  induction envs as [|o envs IH]; intros s.
  - left. split; reflexivity.
  - cbn [for_each]. unfold bind.
    pose proof (refresh_env_iteration_jobs V engine env_name o s) as Hstep.
    destruct (refresh_env_iteration V engine env_name o s) as [[[]|e] s1];
      cbn [snd] in *.
    + eapply job_stored_trans; [exact Hstep | apply IH].
    + exact Hstep.
Qed.

(** C8.  [create_linux_env], [create_windows_env], [delete_env] and
    [refresh_env] store the last job of the session under the engine name
    once their vendor call has succeeded (for ["all"], after each refresh
    that succeeds); [enable_environment], [disable_environment],
    [update_host_address] and [list_env] never write the mapping. *)
Theorem job_capture V s engine :
  engines_key0 V = Ok engine ->
  (forall env_name host_user ip_addr toolkit_path passwd ase_user ase_pw j,
     respond V (calls s)
       (environment_create
          (linux_request env_name host_user ip_addr toolkit_path passwd
             ase_user ase_pw)) = Ok j ->
     let s' := snd (create_linux_env V env_name host_user ip_addr toolkit_path
                      passwd ase_user ase_pw s) in
     last_job s' = j /\ jobs s' = <[engine := last_job s']> (jobs s)) /\
  (forall env_name host_user ip_addr passwd connector_name o h j,
     truthy connector_name = true ->
     find_env_by_name V (calls s) connector_name = Ok (Some o) ->
     Env.host o = Some h ->
     respond V (calls s)
       (environment_create
          (windows_request env_name host_user ip_addr passwd
             [("proxy", VStr h)])) = Ok j ->
     let s' := snd (create_windows_env V env_name host_user ip_addr passwd
                      connector_name s) in
     last_job s' = j /\ jobs s' = <[engine := last_job s']> (jobs s)) /\
  (forall env_name o j,
     find_env_by_name V (calls s) env_name = Ok (Some o) ->
     respond V (calls s) (environment_delete (Env.reference o)) = Ok j ->
     let s' := snd (delete_env V env_name s) in
     last_job s' = j /\ jobs s' = <[engine := last_job s']> (jobs s)) /\
  (forall env_name o j,
     eq_str env_name "all" = false ->
     find_env_by_name V (calls s) env_name = Ok (Some o) ->
     respond V (calls s) (environment_refresh (Env.reference o)) = Ok j ->
     let s' := snd (refresh_env V env_name s) in
     last_job s' = j /\ jobs s' = <[engine := last_job s']> (jobs s)) /\
  (forall envs,
     find_all_envs V (calls s) = Ok envs ->
     job_stored engine s (snd (refresh_env V (VStr "all") s))) /\
  (forall env_name, jobs (snd (enable_environment V env_name s)) = jobs s) /\
  (forall env_name, jobs (snd (disable_environment V env_name s)) = jobs s) /\
  (forall old_host_address new_host_address,
     jobs (snd (update_host_address V old_host_address new_host_address s))
     = jobs s) /\
  jobs (snd (list_env V s)) = jobs s.
Proof.
  intros Hk. repeat apply conj.
  - intros env_name host_user ip_addr toolkit_path passwd ase_user ase_pw j Hr.
    rewrite (create_linux_env_run _ _ _ _ _ _ _ _ _ _ Hk). cbv zeta.
    rewrite Hr. split; reflexivity.
  - intros env_name host_user ip_addr passwd connector_name o h j Ht Hf Hh Hr.
    rewrite (create_windows_env_calls _ _ _ _ _ _ _ _ _ _ Hk Ht Hf Hh).
    cbv zeta. rewrite Hr. split; reflexivity.
  - intros env_name o j Hf Hr.
    rewrite (delete_env_run _ _ _ _ _ Hk Hf). cbv zeta.
    rewrite Hr. split; reflexivity.
  - intros env_name o j Hn Hf Hr.
    rewrite (refresh_env_named_run _ _ _ _ _ Hk Hn Hf). cbv zeta.
    rewrite Hr. split; reflexivity.
  - intros envs Hf.
    rewrite (refresh_env_all_unfold V s engine (VStr "all") envs Hk eq_refl Hf).
    apply refresh_loop_jobs.
  - intros env_name. apply enable_environment_keeps_jobs.
  - intros env_name. apply disable_environment_keeps_jobs.
  - intros old_host_address new_host_address.
    apply update_host_address_keeps_jobs.
  - apply list_env_keeps_jobs.
Qed.

Lemma job_capture_witness :
  (last_job (snd (create_linux_env Mock.quiet (VStr "test1") (VStr "delphix")
                    (VStr "182.1.1.1") (VStr "/var/opt/delphix") VNone VNone
                    VNone Mock.start)) = VStr "JOB-0" /\
   jobs (snd (create_linux_env Mock.quiet (VStr "test1") (VStr "delphix")
                (VStr "182.1.1.1") (VStr "/var/opt/delphix") VNone VNone
                VNone Mock.start))
   = <["landsharkengine" :=
         last_job (snd (create_linux_env Mock.quiet (VStr "test1")
                          (VStr "delphix") (VStr "182.1.1.1")
                          (VStr "/var/opt/delphix") VNone VNone VNone
                          Mock.start))]> (jobs Mock.start)) /\
  (last_job (snd (create_windows_env Mock.quiet (VStr "test2")
                    (VStr "administrator") (VStr "10.0.1.50") (VStr "secret")
                    (VStr "CONNECTOR") Mock.start)) = VStr "JOB-0" /\
   jobs (snd (create_windows_env Mock.quiet (VStr "test2")
                (VStr "administrator") (VStr "10.0.1.50") (VStr "secret")
                (VStr "CONNECTOR") Mock.start))
   = <["landsharkengine" :=
         last_job (snd (create_windows_env Mock.quiet (VStr "test2")
                          (VStr "administrator") (VStr "10.0.1.50")
                          (VStr "secret") (VStr "CONNECTOR") Mock.start))]>
       (jobs Mock.start)) /\
  (last_job (snd (delete_env Mock.quiet (VStr "SOURCE") Mock.start))
   = VStr "JOB-0" /\
   jobs (snd (delete_env Mock.quiet (VStr "SOURCE") Mock.start))
   = <["landsharkengine" :=
         last_job (snd (delete_env Mock.quiet (VStr "SOURCE") Mock.start))]>
       (jobs Mock.start)) /\
  (last_job (snd (refresh_env Mock.quiet (VStr "SOURCE") Mock.start))
   = VStr "JOB-0" /\
   jobs (snd (refresh_env Mock.quiet (VStr "SOURCE") Mock.start))
   = <["landsharkengine" :=
         last_job (snd (refresh_env Mock.quiet (VStr "SOURCE") Mock.start))]>
       (jobs Mock.start)) /\
  job_stored "landsharkengine" Mock.start
    (snd (refresh_env Mock.quiet (VStr "all") Mock.start)).
Proof.
  destruct (job_capture Mock.quiet Mock.start "landsharkengine" eq_refl)
    as (Hlinux & Hwindows & Hdelete & Hrefresh & Hall & _).
  split; [|split; [|split; [|split]]].
  - exact (Hlinux (VStr "test1") (VStr "delphix") (VStr "182.1.1.1")
             (VStr "/var/opt/delphix") VNone VNone VNone (VStr "JOB-0")
             eq_refl).
  - exact (Hwindows (VStr "test2") (VStr "administrator") (VStr "10.0.1.50")
             (VStr "secret") (VStr "CONNECTOR") Mock.windows_env
             "WINDOWS_HOST-2" (VStr "JOB-0") eq_refl eq_refl eq_refl eq_refl).
  - exact (Hdelete (VStr "SOURCE") Mock.unix_env (VStr "JOB-0") eq_refl
             eq_refl).
  - exact (Hrefresh (VStr "SOURCE") Mock.unix_env (VStr "JOB-0") eq_refl
             eq_refl eq_refl).
  - exact (Hall Mock.two_envs eq_refl).
Defined.

(** The claim fails for [enable_environment]: the call succeeds and the
    session has a last job, but the mapping has no entry for the engine. *)
Lemma enable_environment_job_not_captured :
  fst (enable_environment Mock.quiet (VStr "SOURCE") Mock.start) = Ok tt /\
  calls (snd (enable_environment Mock.quiet (VStr "SOURCE") Mock.start))
  = [environment_enable "UNIX_HOST_ENVIRONMENT-1"] /\
  last_job (snd (enable_environment Mock.quiet (VStr "SOURCE") Mock.start))
  = VStr "JOB-0" /\
  jobs (snd (enable_environment Mock.quiet (VStr "SOURCE") Mock.start))
    !! "landsharkengine" = None.
Proof. vm_compute. repeat split. Qed.

(** ** What happens to a failing vendor call *)






(** ** main *)

(** The clauses of [main], by the outcome of the body of its [try]:
    status 2 for a [DlpxException] or an [HttpError], status 3 for a
    [JobError]; a [SystemExit] goes through with its code; when the body
    completes, [main] returns and the status is 0. *)
Theorem main_exit_status V L ARGUMENTS s :
  (forall error,
     fst (main_body L ARGUMENTS s) = Raise (DlpxException error) ->
     exit_status (fst (main V L ARGUMENTS s)) = 2) /\
  (forall status,
     fst (main_body L ARGUMENTS s) = Raise (HttpError status) ->
     exit_status (fst (main V L ARGUMENTS s)) = 2) /\
  (forall job,
     fst (main_body L ARGUMENTS s) = Raise (JobError job) ->
     exit_status (fst (main V L ARGUMENTS s)) = 3) /\
  (forall code,
     fst (main_body L ARGUMENTS s) = Raise (SystemExit code) ->
     fst (main V L ARGUMENTS s) = Raise (SystemExit code)) /\
  (fst (main_body L ARGUMENTS s) = Ok tt ->
   fst (main V L ARGUMENTS s) = Ok tt /\
   exit_status (fst (main V L ARGUMENTS s)) = 0).
Proof.
  unfold main, try_except.
  destruct (main_body L ARGUMENTS s) as [[[]|e] s']; cbn [fst];
    repeat apply conj; intros; try discriminate;
    match goal with
    | H : Raise _ = Raise _ |- _ => injection H as ->
    | _ => idtac
    end; try reflexivity.
  split; reflexivity.
Qed.

Lemma main_exit_status_witness :
  exit_status (fst (main Mock.quiet (Mock.lib (Raise (DlpxException "no engine")))
                      Mock.arguments Mock.start)) = 2 /\
  exit_status (fst (main Mock.quiet (Mock.lib (Raise (HttpError "401")))
                      Mock.arguments Mock.start)) = 2 /\
  exit_status (fst (main Mock.quiet (Mock.lib (Raise (JobError "JOB-7")))
                      Mock.arguments Mock.start)) = 3 /\
  fst (main Mock.quiet (Mock.lib (Raise (SystemExit (VInt 5))))
         Mock.arguments Mock.start) = Raise (SystemExit (VInt 5)) /\
  exit_status (fst (main Mock.quiet (Mock.lib (Ok tt)) Mock.arguments
                      Mock.start)) = 0.
Proof.
  split; [|split; [|split; [|split]]].
  - apply (proj1 (main_exit_status Mock.quiet
                    (Mock.lib (Raise (DlpxException "no engine")))
                    Mock.arguments Mock.start) "no engine").
    reflexivity.
  - destruct (main_exit_status Mock.quiet (Mock.lib (Raise (HttpError "401")))
                Mock.arguments Mock.start) as (_ & H & _).
    apply (H "401"). reflexivity.
  - destruct (main_exit_status Mock.quiet (Mock.lib (Raise (JobError "JOB-7")))
                Mock.arguments Mock.start) as (_ & _ & H & _).
    apply (H "JOB-7"). reflexivity.
  - destruct (main_exit_status Mock.quiet
                (Mock.lib (Raise (SystemExit (VInt 5))))
                Mock.arguments Mock.start) as (_ & _ & _ & H & _).
    apply (H (VInt 5)). reflexivity.
  - destruct (main_exit_status Mock.quiet (Mock.lib (Ok tt)) Mock.arguments
                Mock.start) as (_ & _ & _ & _ & H).
    apply H. vm_compute. reflexivity.
Defined.

(** [main] reads [ARGUMENTS['--single_thread']], a key that the usage text
    does not declare: without it the body of the [try] cannot complete, and
    when the session and the log are set up the [KeyError] is handled by
    no clause of [main]. *)
Lemma main_body_needs_single_thread L ARGUMENTS s :
  ARGUMENTS !! "--single_thread" = None ->
  fst (main_body L ARGUMENTS s) <> Ok tt.
Proof.
  intros Hk. unfold main_body, bind, lift, subscript.
  destruct (GetSession L); [|discriminate].
  destruct (ARGUMENTS !! "--logdir"); [|discriminate].
  destruct (logging_est L _); [|discriminate].
  destruct (ARGUMENTS !! "--config"); [|discriminate].
  rewrite Hk. discriminate.
Qed.

Lemma main_usage_arguments_key_error :
  Mock.usage_arguments !! "--single_thread" = None /\
  fst (main Mock.quiet (Mock.lib (Ok tt)) Mock.usage_arguments Mock.start)
  = Raise (KeyError "--single_thread") /\
  exit_status (fst (main Mock.quiet (Mock.lib (Ok tt)) Mock.usage_arguments
                      Mock.start)) = 1.
Proof. vm_compute. repeat split. Qed.

(** * Further properties *)

(** ** Names that do not resolve, lookups that fail *)

(** X1.  When the lookup answers [None], [enable_environment] and
    [disable_environment] raise an [AttributeError] for [reference] and
    [update_host_address] one for [type]: the [except] clauses do not
    name it, nothing is sent and nothing is logged. *)
Theorem unresolved_name_attribute_error V s :
  (forall env_name,
     find_env_by_name V (calls s) env_name = Ok None ->
     enable_environment V env_name s = (Raise (AttributeError "reference"), s)
     /\
     disable_environment V env_name s
     = (Raise (AttributeError "reference"), s)) /\
  (forall old_host_address new_host_address,
     find_host_by_name V (calls s) old_host_address = Ok None ->
     update_host_address V old_host_address new_host_address s
     = (Raise (AttributeError "type"), s)).
Proof.
  split.
  - intros env_name Hf.
    unfold enable_environment, disable_environment.
    unfold bind at 1 3, find_obj_by_name_environment. rewrite Hf.
    split; reflexivity.
  - intros old_host_address new_host_address Hf.
    unfold update_host_address.
    unfold bind at 1, find_obj_by_name_host. rewrite Hf. reflexivity.
Qed.

Lemma unresolved_name_attribute_error_witness :
  (enable_environment Mock.quiet (VStr "ghost") Mock.start
   = (Raise (AttributeError "reference"), Mock.start) /\
   disable_environment Mock.quiet (VStr "ghost") Mock.start
   = (Raise (AttributeError "reference"), Mock.start)) /\
  update_host_address Mock.quiet (VStr "10.9.9.9") (VStr "10.0.3.60")
    Mock.start
  = (Raise (AttributeError "type"), Mock.start).
Proof.
  destruct (unresolved_name_attribute_error Mock.quiet Mock.start)
    as [Henv Hhost].
  split.
  - apply Henv. reflexivity.
  - apply Hhost. reflexivity.
Defined.

(** X2.  The lookup of [enable_environment], [disable_environment] and
    [update_host_address] is made before the [try]: an exception of the
    lookup, a [DlpxException] included, leaves the function as it is, with
    nothing sent and nothing logged. *)
Theorem lookup_failure_not_handled V s e :
  (forall env_name,
     find_env_by_name V (calls s) env_name = Raise e ->
     enable_environment V env_name s = (Raise e, s) /\
     disable_environment V env_name s = (Raise e, s)) /\
  (forall old_host_address new_host_address,
     find_host_by_name V (calls s) old_host_address = Raise e ->
     update_host_address V old_host_address new_host_address s
     = (Raise e, s)).
Proof.
  split.
  - intros env_name Hf.
    unfold enable_environment, disable_environment.
    unfold bind at 1 3, find_obj_by_name_environment. rewrite Hf.
    split; reflexivity.
  - intros old_host_address new_host_address Hf.
    unfold update_host_address.
    unfold bind at 1, find_obj_by_name_host. rewrite Hf. reflexivity.
Qed.

Lemma lookup_failure_not_handled_witness :
  (enable_environment Mock.strict (VStr "ghost") Mock.start
   = (Raise (DlpxException "Object not found"), Mock.start) /\
   disable_environment Mock.strict (VStr "ghost") Mock.start
   = (Raise (DlpxException "Object not found"), Mock.start)) /\
  update_host_address Mock.strict (VStr "10.9.9.9") (VStr "10.0.3.60")
    Mock.start
  = (Raise (DlpxException "Object not found"), Mock.start).
Proof.
  destruct (lookup_failure_not_handled Mock.strict Mock.start
              (DlpxException "Object not found")) as [Henv Hhost].
  split.
  - apply Henv. reflexivity.
  - apply Hhost. reflexivity.
Defined.

(** X3.  [refresh_env] for one named environment makes its lookup inside
    the [try].  An exception of the lookup that the clause names comes out
    as a [DlpxException] with the text of the refresh failure, any other
    exception as itself, and a lookup that answers [None] as an
    [AttributeError]; in each case nothing is sent and the session is as
    before. *)
Theorem refresh_env_named_lookup V s engine env_name :
  engines_key0 V = Ok engine ->
  eq_str env_name "all" = false ->
  (forall e,
     find_env_by_name V (calls s) env_name = Raise e ->
     refresh_env V env_name s
     = (Raise (if catches (not_found_is_dlpx V)
                    [CDlpxException; CRequestError] e
               then DlpxException
                      ("Refreshing " +:+ str V env_name +:+
                       " encountered an error:" +:+ nl +:+ str_exn e)
               else e), s)) /\
  (find_env_by_name V (calls s) env_name = Ok None ->
   refresh_env V env_name s = (Raise (AttributeError "reference"), s)).
Proof.
  intros Hk Hn. split.
  - intros e Hf. unfold refresh_env, first_engine_name, lift.
    unfold bind at 1. rewrite Hk, Hn.
    unfold try_except.
    unfold bind at 1, find_obj_by_name_environment. rewrite Hf.
    cbn [select_handler].
    destruct (catches _ [CDlpxException; CRequestError] e); reflexivity.
  - intros Hf. unfold refresh_env, first_engine_name, lift.
    unfold bind at 1. rewrite Hk, Hn.
    unfold try_except.
    unfold bind at 1, find_obj_by_name_environment. rewrite Hf.
    reflexivity.
Qed.

Lemma refresh_env_named_lookup_witness :
  refresh_env Mock.strict (VStr "ghost") Mock.start
  = (Raise (DlpxException
              ("Refreshing ghost encountered an error:" +:+ nl +:+
               "Object not found")), Mock.start) /\
  refresh_env Mock.quiet (VStr "ghost") Mock.start
  = (Raise (AttributeError "reference"), Mock.start).
Proof.
  split.
  - apply (proj1 (refresh_env_named_lookup Mock.strict Mock.start
                    "landsharkengine" (VStr "ghost") eq_refl eq_refl)
             (DlpxException "Object not found")).
    reflexivity.
  - apply (proj2 (refresh_env_named_lookup Mock.quiet Mock.start
                    "landsharkengine" (VStr "ghost") eq_refl eq_refl)).
    reflexivity.
Defined.

(** X4.  [delete_env] has no [try]: when the delete call fails, its
    exception leaves the function as it is; the call has been issued and
    neither the job mapping nor the log has changed. *)
Theorem delete_env_failure V s engine env_name o e :
  engines_key0 V = Ok engine ->
  find_env_by_name V (calls s) env_name = Ok (Some o) ->
  respond V (calls s) (environment_delete (Env.reference o)) = Raise e ->
  delete_env V env_name s
  = (Raise e, with_call (environment_delete (Env.reference o)) s).
Proof.
  intros Hk Hf Hr. rewrite (delete_env_run _ _ _ _ _ Hk Hf). cbv zeta.
  now rewrite Hr.
Qed.

Lemma delete_env_failure_witness :
  delete_env (Mock.failing (environment_delete "") (RequestError "in use"))
    (VStr "SOURCE") Mock.start
  = (Raise (RequestError "in use"),
     with_call (environment_delete "UNIX_HOST_ENVIRONMENT-1") Mock.start).
Proof.
  apply (delete_env_failure
           (Mock.failing (environment_delete "") (RequestError "in use"))
           Mock.start "landsharkengine" (VStr "SOURCE") Mock.unix_env
           (RequestError "in use")); reflexivity.
Defined.

(** ** What a computation leaves alone *)

Lemma keeps_ret {A B} (f : Session -> B) (a : A) : keeps f (ret a).
Proof. now intros s. Qed.

Lemma keeps_raise {A B} (f : Session -> B) e : keeps f (@raise A e).
Proof. now intros s. Qed.

Lemma keeps_lift {A B} (f : Session -> B) (r : Result A) : keeps f (lift r).
Proof. now intros s. Qed.

Lemma keeps_bind {A B C} (f : Session -> C) (m : M A) (k : A -> M B) :
  keeps f m -> (forall a, keeps f (k a)) -> keeps f (bind m k).
Proof.
  intros Hm Hk s. unfold bind. specialize (Hm s).
  destruct (m s) as [[a|e] s']; cbn in *.
  - now rewrite Hk.
  - exact Hm.
Qed.

Lemma keeps_select {A C} (f : Session -> C) nf
    (clauses : list (list exn_class * (exn -> M A))) e h :
  Forall (fun cl => forall e, keeps f (snd cl e)) clauses ->
  select_handler nf clauses e = Some h -> keeps f h.
Proof.
  induction 1 as [|[classes h'] rest Hh _ IH]; cbn; [discriminate|].
  destruct (catches nf classes e).
  - intros [= <-]. apply Hh.
  - exact IH.
Qed.

Lemma keeps_try_except {A C} (f : Session -> C) nf (body : M A) clauses :
  keeps f body ->
  Forall (fun cl => forall e, keeps f (snd cl e)) clauses ->
  keeps f (try_except nf body clauses).
Proof.
  intros Hb Hc s. unfold try_except. specialize (Hb s).
  destruct (body s) as [[a|e] s']; cbn in *; [exact Hb|].
  destruct (select_handler nf clauses e) as [h|] eqn:Hs; [|exact Hb].
  rewrite (keeps_select f _ _ _ _ Hc Hs s'). exact Hb.
Qed.

Lemma keeps_for_each {A C} (f : Session -> C) (l : list A) (body : A -> M unit) :
  (forall x, keeps f (body x)) -> keeps f (for_each l body).
Proof.
  intros Hb. induction l as [|x l IH]; cbn [for_each].
  - apply keeps_ret.
  - apply keeps_bind; [apply Hb | intros _; exact IH].
Qed.

Lemma keeps_vendor_call {C} (f : Session -> C) V c :
  (forall c s, f (with_call c s) = f s) ->
  (forall j s, f (with_last_job j s) = f s) ->
  keeps f (vendor_call V c).
Proof.
  intros Hc Hj s. unfold vendor_call.
  destruct (respond V (calls s) c); cbn [snd]; now rewrite ?Hj, Hc.
Qed.

Lemma keeps_get_all {C} (f : Session -> C) V :
  (forall c s, f (with_call c s) = f s) -> keeps f (environment_get_all_ V).
Proof. intros Hc s. apply Hc. Qed.

Lemma keeps_store_last_job {C} (f : Session -> C) engine_name :
  (forall k j s, f (with_job k j s) = f s) ->
  keeps f (store_last_job engine_name).
Proof. intros Hj s. apply Hj. Qed.

Lemma keeps_print_exception {C} (f : Session -> C) line :
  (forall line s, f (with_log line s) = f s) -> keeps f (print_exception line).
Proof. intros Hl s. apply Hl. Qed.

Lemma keeps_print {C} (f : Session -> C) line :
  (forall line s, f (with_stdout line s) = f s) -> keeps f (print line).
Proof. intros Hl s. apply Hl. Qed.

Lemma keeps_first_engine_name {C} (f : Session -> C) V :
  keeps f (first_engine_name V).
Proof. now intros s. Qed.

Lemma keeps_find_env {C} (f : Session -> C) V name :
  keeps f (find_obj_by_name_environment V name).
Proof. now intros s. Qed.

Lemma keeps_find_host {C} (f : Session -> C) V name :
  keeps f (find_obj_by_name_host V name).
Proof. now intros s. Qed.

Lemma keeps_find_all {C} (f : Session -> C) V :
  keeps f (find_all_objects_environment V).
Proof. now intros s. Qed.

Lemma keeps_find_obj_name {C} (f : Session -> C) V cls ref :
  keeps f (find_obj_name_ V cls ref).
Proof. now intros s. Qed.

Lemma keeps_attr_of {O A C} (f : Session -> C) (obj : option O) a
    (proj : O -> A) :
  keeps f (attr_of obj a proj).
Proof. destruct obj; now intros s. Qed.

Ltac keeps_step :=
  first
    [ apply keeps_bind; [|intros ?]
    | apply keeps_try_except; [|repeat constructor; cbn [snd]; intros ?]
    | apply keeps_for_each; intros ?
    | apply keeps_ret | apply keeps_raise | apply keeps_lift
    | apply keeps_first_engine_name | apply keeps_find_env
    | apply keeps_find_host | apply keeps_find_all | apply keeps_find_obj_name
    | apply keeps_attr_of
    | apply keeps_vendor_call; reflexivity
    | apply keeps_get_all; reflexivity
    | apply keeps_store_last_job; reflexivity
    | apply keeps_print_exception; reflexivity
    | apply keeps_print; reflexivity
    | match goal with |- keeps _ (if ?b then _ else _) => destruct b end
    | match goal with |- keeps _ (match ?o with _ => _ end) => destruct o end ].

Ltac keeps_all := repeat keeps_step.

(** ** list_env *)

Lemma list_env_body_keeps {C} (f : Session -> C) V env env_host :
  (forall line s, f (with_stdout line s) = f s) ->
  keeps f (list_env_body V env env_host).
Proof.
  intros Hout. unfold list_env_body.
  repeat first [ apply keeps_print; exact Hout | keeps_step ].
Qed.

Lemma list_env_loop_keeps {C} (f : Session -> C) V all_envs :
  (forall line s, f (with_stdout line s) = f s) ->
  forall env_host, keeps f (list_env_loop V all_envs env_host).
Proof.
  intros Hout. induction all_envs as [|env rest IH]; intros env_host;
    cbn [list_env_loop].
  - apply keeps_ret.
  - apply keeps_bind; [now apply list_env_body_keeps | intros h; apply IH].
Qed.

(** X5.  Whatever the engine answers, [list_env] issues one vendor call,
    the read of all environments, and writes neither the last job, nor the
    job mapping, nor the log. *)
Theorem list_env_only_reads V s :
  calls (snd (list_env V s)) = calls s ++ [environment_get_all] /\
  last_job (snd (list_env V s)) = last_job s /\
  jobs (snd (list_env V s)) = jobs s /\
  log (snd (list_env V s)) = log s.
Proof.
  unfold list_env, bind, environment_get_all_.
  destruct (get_all V (calls s)) as [all_envs|e]; cbn [snd].
  - rewrite (list_env_loop_keeps calls), (list_env_loop_keeps last_job),
      (list_env_loop_keeps jobs), (list_env_loop_keeps log) by reflexivity.
    repeat split.
  - repeat split.
Qed.

Lemma list_env_body_prints V env env_host s :
  (forall history cls ref, exists n, find_obj_name V history cls ref = Ok n) ->
  exists env_host' line,
    list_env_body V env env_host s = (Ok env_host', with_stdout line s).
Proof.
  intros Hnames. unfold list_env_body.
  unfold bind at 1, find_obj_name_.
  destruct (Hnames (calls s) "environment.user" (Env.primary_user env))
    as [env_user ->].
  unfold bind at 1, try_except, attr_of.
  destruct (Env.host env) as [h|].
  - unfold bind at 1, ret. unfold id.
    destruct (Hnames (calls s) "host" h) as [host_name ->].
    unfold bind, print, ret.
    destruct (String.eqb (Env.type env) "WindowsHostEnvironment");
      [|destruct (_ || _)]; eexists; eexists; reflexivity.
  - unfold bind, raise, print, ret. cbn [select_handler catches existsb
      isinstance orb].
    destruct (String.eqb (Env.type env) "WindowsHostEnvironment");
      [|destruct (_ || _)]; eexists; eexists; reflexivity.
Qed.

Lemma list_env_loop_prints V all_envs :
  (forall history cls ref, exists n, find_obj_name V history cls ref = Ok n) ->
  forall env_host s,
    fst (list_env_loop V all_envs env_host s) = Ok tt /\
    length (stdout (snd (list_env_loop V all_envs env_host s)))
    = (length (stdout s) + length all_envs)%nat.
Proof.
  intros Hnames. induction all_envs as [|env rest IH]; intros env_host s.
  - cbn. split; [reflexivity | lia].
  - cbn [list_env_loop]. unfold bind.
    destruct (list_env_body_prints V env env_host s Hnames)
      as (env_host' & line & ->).
    destruct (IH env_host' (with_stdout line s)) as [Hok Hlen].
    split; [exact Hok|].
    rewrite Hlen. cbn [stdout with_stdout length]. rewrite length_app.
    cbn. lia.
Qed.

(** X6.  When the read of all environments succeeds and every name lookup
    answers, [list_env] returns normally and has printed one line per
    environment. *)
Theorem list_env_line_per_environment V s all_envs :
  get_all V (calls s) = Ok all_envs ->
  (forall history cls ref, exists n, find_obj_name V history cls ref = Ok n) ->
  fst (list_env V s) = Ok tt /\
  length (stdout (snd (list_env V s)))
  = (length (stdout s) + length all_envs)%nat.
Proof.
  intros Hg Hnames. unfold list_env, bind, environment_get_all_.
  rewrite Hg.
  apply (list_env_loop_prints V all_envs Hnames ""
           (with_call environment_get_all s)).
Qed.

Lemma list_env_line_per_environment_witness :
  fst (list_env Mock.quiet Mock.start) = Ok tt /\
  length (stdout (snd (list_env Mock.quiet Mock.start))) = 2%nat.
Proof.
  apply (list_env_line_per_environment Mock.quiet Mock.start Mock.two_envs).
  - reflexivity.
  - intros history cls ref. exists ref. reflexivity.
Defined.

(** X7.  The variable [env_host] is set before the loop and not reset in
    it.  For an environment without a host the iteration keeps the value
    that the one before left (the empty string at the start): that is the
    host printed on the line of the environment, unless it is a cluster,
    and the value that the next iteration starts with. *)
Theorem list_env_host_carried_over V s env rest env_host env_user :
  Env.host env = None ->
  find_obj_name V (calls s) "environment.user" (Env.primary_user env)
  = Ok env_user ->
  (Env.type env = "WindowsHostEnvironment" ->
   list_env_loop V (env :: rest) env_host s
   = list_env_loop V rest env_host
       (with_stdout
          ("Environment Name: " +:+ Env.name env +:+ ", Username: " +:+
           env_user +:+ ", Host: " +:+ env_host +:+ ",Enabled: " +:+
           str_bool V (Env.enabled env)) s)) /\
  (Env.type env <> "WindowsHostEnvironment" ->
   Env.type env <> "WindowsCluster" ->
   Env.type env <> "OracleCluster" ->
   list_env_loop V (env :: rest) env_host s
   = list_env_loop V rest env_host
       (with_stdout
          ("Environment Name: " +:+ Env.name env +:+ ", Username: " +:+
           env_user +:+ ", Host: " +:+ env_host +:+ ", Enabled: " +:+
           str_bool V (Env.enabled env) +:+ ", ASE Environment Params: " +:+
           match Env.ase_host_environment_parameters env with
           | Some p => str V p
           | None => "Undefined"
           end) s)).
Proof.
  intros Hh Hu. split.
  - intros Ht. cbn [list_env_loop]. unfold bind at 1, list_env_body.
    unfold bind at 1, find_obj_name_. rewrite Hu.
    unfold bind at 1, try_except, attr_of. rewrite Hh.
    unfold raise. cbn [select_handler catches existsb isinstance orb].
    unfold ret, bind, print. rewrite Ht. reflexivity.
  - intros Ht Hw Ho. cbn [list_env_loop]. unfold bind at 1, list_env_body.
    unfold bind at 1, find_obj_name_. rewrite Hu.
    unfold bind at 1, try_except, attr_of. rewrite Hh.
    unfold raise. cbn [select_handler catches existsb isinstance orb].
    unfold ret, bind, print.
    apply String.eqb_neq in Ht, Hw, Ho. rewrite Ht, Hw, Ho. reflexivity.
Qed.

Lemma list_env_host_carried_over_witness :
  list_env_loop Mock.quiet [Mock.hostless_env] "WINDOWS_HOST-2" Mock.start
  = list_env_loop Mock.quiet [] "WINDOWS_HOST-2"
      (with_stdout
         "Environment Name: TARGET, Username: HOST_USER-4, Host: WINDOWS_HOST-2,Enabled: True"
         Mock.start).
Proof.
  apply (proj1 (list_env_host_carried_over Mock.quiet Mock.start
                  Mock.hostless_env [] "WINDOWS_HOST-2" "HOST_USER-4"
                  eq_refl eq_refl)).
  reflexivity.
Defined.

(** ** Failures that leave no line *)

(** X8.  [create_linux_env], [create_windows_env], [delete_env] and
    [refresh_env] never write to the log or to the standard output,
    whatever the engine answers: a failure shows in the exception they
    raise, if they raise one, and nowhere else. *)
Theorem actions_that_never_log V s :
  (forall env_name host_user ip_addr toolkit_path passwd ase_user ase_pw,
     log (snd (create_linux_env V env_name host_user ip_addr toolkit_path
                 passwd ase_user ase_pw s)) = log s /\
     stdout (snd (create_linux_env V env_name host_user ip_addr toolkit_path
                    passwd ase_user ase_pw s)) = stdout s) /\
  (forall env_name host_user ip_addr passwd connector_name,
     log (snd (create_windows_env V env_name host_user ip_addr passwd
                 connector_name s)) = log s /\
     stdout (snd (create_windows_env V env_name host_user ip_addr passwd
                    connector_name s)) = stdout s) /\
  (forall env_name,
     log (snd (delete_env V env_name s)) = log s /\
     stdout (snd (delete_env V env_name s)) = stdout s) /\
  (forall env_name,
     log (snd (refresh_env V env_name s)) = log s /\
     stdout (snd (refresh_env V env_name s)) = stdout s).
Proof.
  assert (Hlinux : forall C (f : Session -> C) a b c d e g h,
             (forall c s, f (with_call c s) = f s) ->
             (forall j s, f (with_last_job j s) = f s) ->
             (forall k j s, f (with_job k j s) = f s) ->
             keeps f (create_linux_env V a b c d e g h)).
  { intros C f a b c d e g h H1 H2 H3. unfold create_linux_env.
    repeat first [ apply keeps_vendor_call; assumption
                 | apply keeps_store_last_job; assumption | keeps_step ]. }
  assert (Hwindows : forall C (f : Session -> C) a b c d e,
             (forall c s, f (with_call c s) = f s) ->
             (forall j s, f (with_last_job j s) = f s) ->
             (forall k j s, f (with_job k j s) = f s) ->
             keeps f (create_windows_env V a b c d e)).
  { intros C f a b c d e H1 H2 H3. unfold create_windows_env.
    repeat first [ apply keeps_vendor_call; assumption
                 | apply keeps_store_last_job; assumption | keeps_step ]. }
  assert (Hdelete : forall C (f : Session -> C) a,
             (forall c s, f (with_call c s) = f s) ->
             (forall j s, f (with_last_job j s) = f s) ->
             (forall k j s, f (with_job k j s) = f s) ->
             keeps f (delete_env V a)).
  { intros C f a H1 H2 H3. unfold delete_env.
    repeat first [ apply keeps_vendor_call; assumption
                 | apply keeps_store_last_job; assumption | keeps_step ]. }
  assert (Hrefresh : forall C (f : Session -> C) a,
             (forall c s, f (with_call c s) = f s) ->
             (forall j s, f (with_last_job j s) = f s) ->
             (forall k j s, f (with_job k j s) = f s) ->
             keeps f (refresh_env V a)).
  { intros C f a H1 H2 H3. unfold refresh_env, refresh_env_iteration.
    repeat first [ apply keeps_vendor_call; assumption
                 | apply keeps_store_last_job; assumption | keeps_step ]. }
  split; [|split; [|split]].
  - intros a b c d e g h.
    split; [apply (Hlinux _ log) | apply (Hlinux _ stdout)]; reflexivity.
  - intros a b c d e.
    split; [apply (Hwindows _ log) | apply (Hwindows _ stdout)]; reflexivity.
  - intros a.
    split; [apply (Hdelete _ log) | apply (Hdelete _ stdout)]; reflexivity.
  - intros a.
    split; [apply (Hrefresh _ log) | apply (Hrefresh _ stdout)]; reflexivity.
Qed.

(** ** Which calls an action issues, and how many *)

Lemma only_calls_keeps {A} P (m : M A) : keeps calls m -> only_calls P m.
Proof.
  intros Hk s. exists []. rewrite app_nil_r. split; [apply Hk | constructor].
Qed.

Lemma only_calls_weaken {A} (P Q : Call -> Prop) (m : M A) :
  (forall c, P c -> Q c) -> only_calls P m -> only_calls Q m.
Proof.
  intros HPQ Hm s. destruct (Hm s) as (l & Hl & HP).
  exists l. split; [exact Hl|]. eapply Forall_impl; eauto.
Qed.

Lemma only_calls_bind {A B} P (m : M A) (k : A -> M B) :
  only_calls P m -> (forall a, only_calls P (k a)) -> only_calls P (bind m k).
Proof.
  intros Hm Hk s. unfold bind. destruct (Hm s) as (l & Hl & HP).
  destruct (m s) as [[a|e] s']; cbn [snd] in *.
  - destruct (Hk a s') as (l' & Hl' & HP').
    exists (l ++ l'). rewrite Hl', Hl, app_assoc.
    split; [reflexivity | now apply Forall_app].
  - exists l. now split.
Qed.

Lemma only_calls_bind_lift {A B} P (r : Result A) (k : A -> M B) :
  (forall a, r = Ok a -> only_calls P (k a)) -> only_calls P (bind (lift r) k).
Proof.
  intros Hk s. unfold bind, lift. destruct r as [a|e].
  - now apply Hk.
  - exists []. rewrite app_nil_r. split; [reflexivity | constructor].
Qed.

Lemma only_calls_select {A} P nf
    (clauses : list (list exn_class * (exn -> M A))) e h :
  Forall (fun cl => forall e, only_calls P (snd cl e)) clauses ->
  select_handler nf clauses e = Some h -> only_calls P h.
Proof.
  induction 1 as [|[classes h'] rest Hh _ IH]; cbn; [discriminate|].
  destruct (catches nf classes e).
  - intros [= <-]. apply Hh.
  - exact IH.
Qed.

Lemma only_calls_try_except {A} P nf (body : M A) clauses :
  only_calls P body ->
  Forall (fun cl => forall e, only_calls P (snd cl e)) clauses ->
  only_calls P (try_except nf body clauses).
Proof.
  intros Hb Hc s. unfold try_except. destruct (Hb s) as (l & Hl & HP).
  destruct (body s) as [[a|e] s']; cbn [snd] in *; [now exists l|].
  destruct (select_handler nf clauses e) as [h|] eqn:Hs; [|now exists l].
  destruct (only_calls_select P _ _ _ _ Hc Hs s') as (l' & Hl' & HP').
  exists (l ++ l'). rewrite Hl', Hl, app_assoc.
  split; [reflexivity | now apply Forall_app].
Qed.

Lemma only_calls_for_each {A} P (l : list A) (body : A -> M unit) :
  (forall x, only_calls P (body x)) -> only_calls P (for_each l body).
Proof.
  intros Hb. induction l as [|x l IH]; cbn [for_each].
  - apply only_calls_keeps, keeps_ret.
  - apply only_calls_bind; [apply Hb | intros _; exact IH].
Qed.

Lemma only_calls_vendor_call (P : Call -> Prop) V c :
  P c -> only_calls P (vendor_call V c).
Proof.
  intros Hc s. exists [c]. unfold vendor_call.
  destruct (respond V (calls s) c); (split; [reflexivity | now repeat constructor]).
Qed.

Lemma only_calls_get_all (P : Call -> Prop) V :
  P environment_get_all -> only_calls P (environment_get_all_ V).
Proof.
  intros Hc s. exists [environment_get_all].
  split; [reflexivity | now repeat constructor].
Qed.

Lemma at_most_one_keeps {A} (m : M A) : keeps calls m -> at_most_one_call m.
Proof. intros Hk s. left. apply Hk. Qed.

Lemma at_most_one_bind_l {A B} (m : M A) (k : A -> M B) :
  keeps calls m -> (forall a, at_most_one_call (k a)) ->
  at_most_one_call (bind m k).
Proof.
  intros Hm Hk s. unfold bind. specialize (Hm s).
  destruct (m s) as [[a|e] s']; cbn [snd] in *.
  - destruct (Hk a s') as [H|[c H]]; rewrite H, Hm; eauto.
  - now left.
Qed.

Lemma at_most_one_bind_r {A B} (m : M A) (k : A -> M B) :
  at_most_one_call m -> (forall a, keeps calls (k a)) ->
  at_most_one_call (bind m k).
Proof.
  intros Hm Hk s. unfold bind. specialize (Hm s).
  destruct (m s) as [[a|e] s']; cbn [snd] in *.
  - rewrite (Hk a s'). exact Hm.
  - exact Hm.
Qed.

Lemma at_most_one_try_except {A} nf (body : M A) clauses :
  at_most_one_call body ->
  Forall (fun cl => forall e, keeps calls (snd cl e)) clauses ->
  at_most_one_call (try_except nf body clauses).
Proof.
  intros Hb Hc s. unfold try_except. specialize (Hb s).
  destruct (body s) as [[a|e] s']; cbn [snd] in *; [exact Hb|].
  destruct (select_handler nf clauses e) as [h|] eqn:Hs; [|exact Hb].
  rewrite (keeps_select calls _ _ _ _ Hc Hs s'). exact Hb.
Qed.

Lemma at_most_one_vendor_call V c : at_most_one_call (vendor_call V c).
Proof.
  intros s. right. exists c. unfold vendor_call.
  now destruct (respond V (calls s) c).
Qed.

Ltac only_calls_step :=
  first
    [ apply only_calls_keeps; solve [keeps_all]
    | apply only_calls_vendor_call; reflexivity
    | apply only_calls_get_all; reflexivity
    | apply only_calls_bind; [|intros ?]
    | apply only_calls_try_except; [|repeat constructor; cbn [snd]; intros ?]
    | apply only_calls_for_each; intros ?
    | match goal with |- only_calls _ (if ?b then _ else _) => destruct b end
    | match goal with |- only_calls _ (match ?o with _ => _ end) => destruct o end ].

Ltac at_most_one_step :=
  first
    [ apply at_most_one_keeps; solve [keeps_all]
    | apply at_most_one_vendor_call
    | apply at_most_one_bind_l; [solve [keeps_all] | intros ?]
    | apply at_most_one_bind_r; [|intros ?; solve [keeps_all]]
    | apply at_most_one_try_except;
      [|repeat constructor; cbn [snd]; intros ?; solve [keeps_all]]
    | match goal with
      | |- at_most_one_call (if ?b then _ else _) => destruct b
      end
    | match goal with
      | |- at_most_one_call (match ?o with _ => _ end) => destruct o
      end ].

Lemma enable_environment_calls_enable V env_name :
  only_calls (fun c => call_kind c = "environment.enable")
    (enable_environment V env_name).
Proof. unfold enable_environment. repeat only_calls_step. Qed.

Lemma disable_environment_calls_disable V env_name :
  only_calls (fun c => call_kind c = "environment.disable")
    (disable_environment V env_name).
Proof. unfold disable_environment. repeat only_calls_step. Qed.

Lemma update_host_address_calls_update V old_host_address new_host_address :
  only_calls (fun c => call_kind c = "host.update")
    (update_host_address V old_host_address new_host_address).
Proof. unfold update_host_address. repeat only_calls_step. Qed.

Lemma list_env_calls_get_all V :
  only_calls (fun c => call_kind c = "environment.get_all") (list_env V).
Proof.
  unfold list_env. apply only_calls_bind; [only_calls_step|].
  intros all_envs. apply only_calls_keeps.
  now apply list_env_loop_keeps.
Qed.

Lemma delete_env_calls_delete V env_name :
  only_calls (fun c => call_kind c = "environment.delete")
    (delete_env V env_name).
Proof. unfold delete_env. repeat only_calls_step. Qed.

Lemma refresh_env_calls_refresh V env_name :
  only_calls (fun c => call_kind c = "environment.refresh")
    (refresh_env V env_name).
Proof. unfold refresh_env, refresh_env_iteration. repeat only_calls_step. Qed.

Lemma create_linux_env_calls_create V env_name host_user ip_addr toolkit_path
    passwd ase_user ase_pw :
  only_calls (fun c => call_kind c = "environment.create")
    (create_linux_env V env_name host_user ip_addr toolkit_path passwd ase_user
       ase_pw).
Proof. unfold create_linux_env. repeat only_calls_step. Qed.

Lemma create_windows_env_calls_create V env_name host_user ip_addr passwd
    connector_name :
  only_calls (fun c => call_kind c = "environment.create")
    (create_windows_env V env_name host_user ip_addr passwd connector_name).
Proof. unfold create_windows_env. repeat only_calls_step. Qed.

(** X9.  Every action calls one function of the SDK only:
    [enable_environment] the enabling of an environment,
    [disable_environment] the disabling, [update_host_address] the update
    of a host, [list_env] the read of all environments, [delete_env] the
    deletion, [refresh_env] the refresh (for one name and for ["all"]),
    and the two create functions the creation.  This holds for every
    answer of the engine, failures included. *)
Theorem actions_call_their_own_function V :
  (forall env_name,
     only_calls (fun c => call_kind c = "environment.enable")
       (enable_environment V env_name)) /\
  (forall env_name,
     only_calls (fun c => call_kind c = "environment.disable")
       (disable_environment V env_name)) /\
  (forall old_host_address new_host_address,
     only_calls (fun c => call_kind c = "host.update")
       (update_host_address V old_host_address new_host_address)) /\
  only_calls (fun c => call_kind c = "environment.get_all") (list_env V) /\
  (forall env_name,
     only_calls (fun c => call_kind c = "environment.delete")
       (delete_env V env_name)) /\
  (forall env_name,
     only_calls (fun c => call_kind c = "environment.refresh")
       (refresh_env V env_name)) /\
  (forall env_name host_user ip_addr toolkit_path passwd ase_user ase_pw,
     only_calls (fun c => call_kind c = "environment.create")
       (create_linux_env V env_name host_user ip_addr toolkit_path passwd
          ase_user ase_pw)) /\
  (forall env_name host_user ip_addr passwd connector_name,
     only_calls (fun c => call_kind c = "environment.create")
       (create_windows_env V env_name host_user ip_addr passwd
          connector_name)).
Proof.
  repeat apply conj; intros.
  - apply enable_environment_calls_enable.
  - apply disable_environment_calls_disable.
  - apply update_host_address_calls_update.
  - apply list_env_calls_get_all.
  - apply delete_env_calls_delete.
  - apply refresh_env_calls_refresh.
  - apply create_linux_env_calls_create.
  - apply create_windows_env_calls_create.
Qed.

(** X10.  Apart from [refresh_env] for ["all"], an action issues at most
    one vendor call in a run, whatever the engine answers. *)
Theorem actions_issue_at_most_one_call V :
  (forall env_name, at_most_one_call (enable_environment V env_name)) /\
  (forall env_name, at_most_one_call (disable_environment V env_name)) /\
  (forall old_host_address new_host_address,
     at_most_one_call
       (update_host_address V old_host_address new_host_address)) /\
  (forall env_name, at_most_one_call (delete_env V env_name)) /\
  (forall env_name,
     eq_str env_name "all" = false ->
     at_most_one_call (refresh_env V env_name)) /\
  (forall env_name host_user ip_addr toolkit_path passwd ase_user ase_pw,
     at_most_one_call
       (create_linux_env V env_name host_user ip_addr toolkit_path passwd
          ase_user ase_pw)) /\
  (forall env_name host_user ip_addr passwd connector_name,
     at_most_one_call
       (create_windows_env V env_name host_user ip_addr passwd
          connector_name)).
Proof.
  repeat apply conj; intros.
  - unfold enable_environment. repeat at_most_one_step.
  - unfold disable_environment. repeat at_most_one_step.
  - unfold update_host_address. repeat at_most_one_step.
  - unfold delete_env. repeat at_most_one_step.
  - unfold refresh_env.
    apply at_most_one_bind_l; [solve [keeps_all] | intros engine_name].
    match goal with H : eq_str _ _ = false |- _ => rewrite H end.
    repeat at_most_one_step.
  - unfold create_linux_env. repeat at_most_one_step.
  - unfold create_windows_env. repeat at_most_one_step.
Qed.

Lemma actions_issue_at_most_one_call_witness :
  calls (snd (refresh_env Mock.busy (VStr "SOURCE") Mock.start))
  = calls Mock.start \/
  exists c,
    calls (snd (refresh_env Mock.busy (VStr "SOURCE") Mock.start))
    = calls Mock.start ++ [c].
Proof.
  destruct (actions_issue_at_most_one_call Mock.busy)
    as (_ & _ & _ & _ & H & _).
  apply (H (VStr "SOURCE") eq_refl Mock.start).
Defined.

(** ** refresh_env for "all", whatever fails *)

Lemma refresh_loop_prefix V engine env_name envs :
  forall s,
    let r := for_each envs (refresh_env_iteration V engine env_name) s in
    exists k,
      (k <= length envs)%nat /\
      calls (snd r) = calls s ++ refresh_calls (take k envs) /\
      (fst r = Ok tt -> k = length envs) /\
      (forall e, fst r = Raise e ->
                 catches (not_found_is_dlpx V) [CDlpxException; CRequestError] e
                 = false).
Proof.
  induction envs as [|o envs IH]; intros s r; subst r.
  - exists 0%nat. cbn. rewrite app_nil_r.
    repeat split; [lia | discriminate].
  - cbn [for_each]. unfold bind. rewrite refresh_env_iteration_run.
    destruct (respond V (calls s) _) as [j|e] eqn:Hr.
    + destruct (IH (with_job engine j (with_last_job j
                      (with_call (environment_refresh (Env.reference o)) s))))
        as (k & Hk & Hc & Hok & Hraise).
      exists (S k). cbn [length take refresh_calls map].
      split; [lia|]. split; [|split].
      * rewrite Hc. cbn. now rewrite <- app_assoc.
      * intros H. f_equal. now apply Hok.
      * exact Hraise.
    + destruct (catches _ [CDlpxException; CRequestError] e) eqn:Hcatch.
      * destruct (IH (with_call (environment_refresh (Env.reference o)) s))
          as (k & Hk & Hc & Hok & Hraise).
        exists (S k). cbn [length take refresh_calls map].
        split; [lia|]. split; [|split].
        -- rewrite Hc. cbn. now rewrite <- app_assoc.
        -- intros H. f_equal. now apply Hok.
        -- exact Hraise.
      * exists 1%nat. cbn [length take refresh_calls map fst snd].
        split; [lia|]. split; [|split].
        -- rewrite take_0. reflexivity.
        -- discriminate.
        -- intros e' [= <-]. exact Hcatch.
Qed.

(** X11.  For ["all"], whichever refreshes fail, the calls that
    [refresh_env] issues are the refresh calls of the first [k]
    environments of the list, in order.  When it returns normally every
    environment has had its call; when it raises, the exception is one
    that the clause of the loop does not name. *)
Theorem refresh_env_all_prefix V s engine envs :
  engines_key0 V = Ok engine ->
  find_all_envs V (calls s) = Ok envs ->
  exists k,
    (k <= length envs)%nat /\
    calls (snd (refresh_env V (VStr "all") s))
    = calls s ++ refresh_calls (take k envs) /\
    (fst (refresh_env V (VStr "all") s) = Ok tt -> k = length envs) /\
    (forall e,
       fst (refresh_env V (VStr "all") s) = Raise e ->
       catches (not_found_is_dlpx V) [CDlpxException; CRequestError] e = false).
Proof.
  intros Hk Hf.
  rewrite (refresh_env_all_unfold V s engine (VStr "all") envs Hk eq_refl Hf).
  apply refresh_loop_prefix.
Qed.

Lemma refresh_env_all_prefix_witness :
  exists k,
    (k <= 2)%nat /\
    calls (snd (refresh_env Mock.down (VStr "all") Mock.start))
    = refresh_calls (take k Mock.two_envs).
Proof.
  destruct (refresh_env_all_prefix Mock.down Mock.start "landsharkengine"
              Mock.two_envs eq_refl eq_refl) as (k & Hk & Hc & _).
  exists k. split; [exact Hk | exact Hc].
Defined.

(** ** What create_linux_env can raise *)

(** X12.  With an engine name at hand, no [RequestError], [HttpError] or
    [JobError] comes out of [create_linux_env]: each is turned into a
    [DlpxException]. *)
Theorem create_linux_env_raises_no_vendor_error V s engine env_name host_user
    ip_addr toolkit_path passwd ase_user ase_pw e :
  engines_key0 V = Ok engine ->
  fst (create_linux_env V env_name host_user ip_addr toolkit_path passwd
         ase_user ase_pw s) = Raise e ->
  forall x, e <> RequestError x /\ e <> HttpError x /\ e <> JobError x.
Proof.
  intros Hk. rewrite (create_linux_env_run _ _ _ _ _ _ _ _ _ _ Hk). cbv zeta.
  destruct (respond V (calls s) _) as [j|e']; [discriminate|].
  destruct (catches _ [CDlpxException; CRequestError; CHttpError] e') eqn:E1.
  - intros [= <-] x. repeat split; discriminate.
  - destruct (catches _ [CJobError] e') eqn:E2.
    + intros [= <-] x. repeat split; discriminate.
    + intros [= <-] x.
      repeat split; intros ->; cbn in E1, E2; discriminate.
Qed.

Lemma create_linux_env_raises_no_vendor_error_witness :
  fst (create_linux_env
         (Mock.failing (environment_create VNone) (JobError "JOB-7"))
         (VStr "test1") (VStr "delphix") (VStr "182.1.1.1")
         (VStr "/var/opt/delphix") VNone VNone VNone Mock.start)
  = Raise (DlpxException
             ("JobError while creating environment:" +:+ nl +:+ "JOB-7")) /\
  DlpxException ("JobError while creating environment:" +:+ nl +:+ "JOB-7")
  <> JobError "JOB-7".
Proof.
  split; [reflexivity|].
  apply (create_linux_env_raises_no_vendor_error
           (Mock.failing (environment_create VNone) (JobError "JOB-7"))
           Mock.start "landsharkengine" (VStr "test1") (VStr "delphix")
           (VStr "182.1.1.1") (VStr "/var/opt/delphix") VNone VNone VNone
           (DlpxException
              ("JobError while creating environment:" +:+ nl +:+ "JOB-7"))
           eq_refl eq_refl "JOB-7").
Defined.

(** ** main: what it has no clause for *)

(** X13.  An exception of the body of [main] that is neither a
    [SystemExit], a [DlpxException], an [HttpError], a [JobError] nor a
    [KeyboardInterrupt] (a [RequestError], a [KeyError] ...) is handled by
    no clause: it leaves [main] as it is, nothing is logged for it, and the
    interpreter ends with status 1. *)
Theorem main_unhandled_exception V L ARGUMENTS s e :
  fst (main_body L ARGUMENTS s) = Raise e ->
  catches (not_found_is_dlpx V) main_classes e = false ->
  main V L ARGUMENTS s = main_body L ARGUMENTS s /\
  exit_status (fst (main V L ARGUMENTS s)) = 1.
Proof.
  intros Hb Hc. unfold main, try_except.
  destruct (main_body L ARGUMENTS s) as [[[]|e'] s']; cbn [fst] in *;
    [discriminate|].
  injection Hb as ->.
  destruct e; cbn in Hc; try discriminate;
    try (destruct (not_found_is_dlpx V); try discriminate);
    split; reflexivity.
Qed.

Lemma main_unhandled_exception_witness :
  main Mock.quiet (Mock.lib (Raise (RequestError "denied"))) Mock.arguments
    Mock.start
  = (Raise (RequestError "denied"), Mock.start) /\
  exit_status (fst (main Mock.quiet (Mock.lib (Raise (RequestError "denied")))
                      Mock.arguments Mock.start)) = 1.
Proof.
  apply (main_unhandled_exception Mock.quiet
           (Mock.lib (Raise (RequestError "denied"))) Mock.arguments
           Mock.start (RequestError "denied")); reflexivity.
Defined.

(** X14.  A [KeyboardInterrupt] in the body is absorbed: [main] logs two
    lines and returns, so the interpreter ends with status 0. *)
Theorem main_keyboard_interrupt_returns V L ARGUMENTS s s' :
  main_body L ARGUMENTS s = (Raise KeyboardInterrupt, s') ->
  main V L ARGUMENTS s
  = (Ok tt,
     with_log (script_name L +:+ " took " +:+ time_elapsed L +:+
               " minutes to get this far.")
       (with_log "You sent a CTRL+C to interrupt the process" s')) /\
  exit_status (fst (main V L ARGUMENTS s)) = 0.
Proof.
  intros Hb. unfold main, try_except. rewrite Hb. split; reflexivity.
Qed.

Lemma main_keyboard_interrupt_returns_witness :
  exit_status (fst (main Mock.quiet (Mock.lib (Raise KeyboardInterrupt))
                      Mock.arguments Mock.start)) = 0.
Proof.
  apply (main_keyboard_interrupt_returns Mock.quiet
           (Mock.lib (Raise KeyboardInterrupt)) Mock.arguments Mock.start
           Mock.start).
  reflexivity.
Defined.

(** X15.  [main] reads [ARGUMENTS['--single_thread']] before it reads the
    configuration.  When the session and the log are set up and the key
    is missing, [main] raises the [KeyError] of that key (status 1): the
    configuration is not read and no engine is worked on. *)
Theorem main_missing_single_thread V L ARGUMENTS s logdir config :
  GetSession L = Ok tt ->
  ARGUMENTS !! "--logdir" = Some logdir ->
  logging_est L logdir = Ok tt ->
  ARGUMENTS !! "--config" = Some config ->
  ARGUMENTS !! "--single_thread" = None ->
  main V L ARGUMENTS s = (Raise (KeyError "--single_thread"), s) /\
  exit_status (fst (main V L ARGUMENTS s)) = 1.
Proof.
  intros Hs Hl Hlog Hc Hk.
  assert (Hb : main_body L ARGUMENTS s = (Raise (KeyError "--single_thread"), s)).
  { unfold main_body, bind, lift, subscript.
    now rewrite Hs, Hl, Hlog, Hc, Hk. }
  unfold main, try_except. rewrite Hb. split; reflexivity.
Qed.

Lemma main_missing_single_thread_witness :
  main Mock.quiet (Mock.lib (Ok tt)) Mock.usage_arguments Mock.start
  = (Raise (KeyError "--single_thread"), Mock.start) /\
  exit_status (fst (main Mock.quiet (Mock.lib (Ok tt)) Mock.usage_arguments
                      Mock.start)) = 1.
Proof.
  apply (main_missing_single_thread Mock.quiet (Mock.lib (Ok tt))
           Mock.usage_arguments Mock.start (VStr "./dx_environment.log")
           (VStr "./dxtools.conf")); vm_compute; reflexivity.
Defined.

(** ** create_windows_env: the connector *)

Lemma create_windows_env_hostless V s engine env_name host_user ip_addr
    passwd connector_name o :
  engines_key0 V = Ok engine ->
  truthy connector_name = true ->
  find_env_by_name V (calls s) connector_name = Ok (Some o) ->
  Env.host o = None ->
  create_windows_env V env_name host_user ip_addr passwd connector_name s
  = (Raise (AttributeError "host"), s).
Proof.
  intros Hk Ht Hf Hh. unfold create_windows_env, first_engine_name, lift.
  unfold bind at 1. rewrite Hk.
  unfold bind at 1. rewrite windows_env_params_eq.
  unfold bind at 1. rewrite Ht.
  unfold find_obj_by_name_environment. rewrite Hf.
  unfold bind at 1. unfold attr_of, bind at 1. rewrite Hh. reflexivity.
Qed.

Lemma create_windows_env_lookup_raises V s engine env_name host_user ip_addr
    passwd connector_name e :
  engines_key0 V = Ok engine ->
  truthy connector_name = true ->
  find_env_by_name V (calls s) connector_name = Raise e ->
  create_windows_env V env_name host_user ip_addr passwd connector_name s
  = (Raise e, s).
Proof.
  intros Hk Ht Hf. unfold create_windows_env, first_engine_name, lift.
  unfold bind at 1. rewrite Hk.
  unfold bind at 1. rewrite windows_env_params_eq.
  unfold bind at 1. rewrite Ht.
  unfold find_obj_by_name_environment. rewrite Hf. reflexivity.
Qed.

(** X16.  [create_windows_env] sends nothing and leaves the session as it
    was in each of these cases: the connector name is falsy, an empty
    string as much as [None] (the lookup is then not consulted), or the
    lookup answers [None] (both raise [DlpxObjectNotFound]); the
    environment found has no host ([AttributeError]); the lookup raises
    (its exception comes out as it is). *)
Theorem create_windows_env_without_proxy V s engine env_name host_user ip_addr
    passwd connector_name :
  engines_key0 V = Ok engine ->
  (truthy connector_name = false \/
   find_env_by_name V (calls s) connector_name = Ok None ->
   create_windows_env V env_name host_user ip_addr passwd connector_name s
   = (Raise (DlpxObjectNotFound
               ("Host was not found in the Engine: " +:+ str V connector_name)),
      s)) /\
  (forall o,
     truthy connector_name = true ->
     find_env_by_name V (calls s) connector_name = Ok (Some o) ->
     Env.host o = None ->
     create_windows_env V env_name host_user ip_addr passwd connector_name s
     = (Raise (AttributeError "host"), s)) /\
  (forall e,
     truthy connector_name = true ->
     find_env_by_name V (calls s) connector_name = Raise e ->
     create_windows_env V env_name host_user ip_addr passwd connector_name s
     = (Raise e, s)).
Proof.
  intros Hk. split; [|split].
  - intros Hc. eapply create_windows_env_no_connector; [exact Hk | exact Hc].
  - intros o. now apply (create_windows_env_hostless V s engine).
  - intros e. now apply (create_windows_env_lookup_raises V s engine).
Qed.

Lemma create_windows_env_without_proxy_witness :
  create_windows_env Mock.quiet (VStr "SOURCE") (VStr "administrator")
    (VStr "10.0.1.50") (VStr "secret") (VStr "") Mock.start
  = (Raise (DlpxObjectNotFound "Host was not found in the Engine: "),
     Mock.start) /\
  create_windows_env (Mock.engine [Mock.hostless_env] [] Mock.never)
    (VStr "SOURCE") (VStr "administrator") (VStr "10.0.1.50") (VStr "secret")
    (VStr "TARGET") Mock.start
  = (Raise (AttributeError "host"), Mock.start) /\
  create_windows_env Mock.strict (VStr "SOURCE") (VStr "administrator")
    (VStr "10.0.1.50") (VStr "secret") (VStr "ghost") Mock.start
  = (Raise (DlpxException "Object not found"), Mock.start).
Proof.
  split; [|split].
  - apply (proj1 (create_windows_env_without_proxy Mock.quiet Mock.start
                    "landsharkengine" (VStr "SOURCE") (VStr "administrator")
                    (VStr "10.0.1.50") (VStr "secret") (VStr "") eq_refl)).
    left. reflexivity.
  - destruct (create_windows_env_without_proxy
                (Mock.engine [Mock.hostless_env] [] Mock.never) Mock.start
                "landsharkengine" (VStr "SOURCE") (VStr "administrator")
                (VStr "10.0.1.50") (VStr "secret") (VStr "TARGET") eq_refl)
      as (_ & H & _).
    apply (H Mock.hostless_env); reflexivity.
  - destruct (create_windows_env_without_proxy Mock.strict Mock.start
                "landsharkengine" (VStr "SOURCE") (VStr "administrator")
                (VStr "10.0.1.50") (VStr "secret") (VStr "ghost") eq_refl)
      as (_ & _ & H).
    apply (H (DlpxException "Object not found")); reflexivity.
Defined.

(** X17.  The request that [create_windows_env] sends names the user and
    gives it a [PasswordCredential] holding [passwd], also when [passwd]
    is [None] (there is no key-based credential here); its host
    parameters name the environment and hold a [WindowsHost] with the
    connector port 9100 and the address; its host environment is a
    [WindowsHostEnvironment] with the name and the proxy. *)
Theorem create_windows_env_request V s engine env_name host_user ip_addr passwd
    connector_name o h :
  engines_key0 V = Ok engine ->
  truthy connector_name = true ->
  find_env_by_name V (calls s) connector_name = Ok (Some o) ->
  Env.host o = Some h ->
  exists req,
    calls (snd (create_windows_env V env_name host_user ip_addr passwd
                  connector_name s))
    = calls s ++ [environment_create req] /\
    getattr req "primary_user"
    = Ok (VObj "EnvironmentUser"
            [("name", host_user);
             ("credential",
              VObj "PasswordCredential" [("password", passwd)])]) /\
    getattr req "host_parameters"
    = Ok (VObj "WindowsHostCreateParameters"
            [("host", VObj "WindowsHost" [("connector_port", VInt 9100);
                                          ("address", ip_addr)]);
             ("name", env_name)]) /\
    getattr req "host_environment"
    = Ok (VObj "WindowsHostEnvironment"
            [("name", env_name); ("proxy", VStr h)]).
Proof.
  intros Hk Ht Hf Hh. eexists. split.
  - rewrite (create_windows_env_calls _ _ _ _ _ _ _ _ _ _ Hk Ht Hf Hh).
    destruct (respond V (calls s) _) as [j|e]; [reflexivity|].
    destruct (catches _ _ e); reflexivity.
  - repeat split.
Qed.

Lemma create_windows_env_request_witness :
  exists req,
    calls (snd (create_windows_env Mock.quiet (VStr "SOURCE")
                  (VStr "administrator") (VStr "10.0.1.50") VNone
                  (VStr "CONNECTOR") Mock.start))
    = [environment_create req] /\
    getattr_path req ["primary_user"; "credential"]
    = Ok (VObj "PasswordCredential" [("password", VNone)]).
Proof.
  destruct (create_windows_env_request Mock.quiet Mock.start "landsharkengine"
              (VStr "SOURCE") (VStr "administrator") (VStr "10.0.1.50") VNone
              (VStr "CONNECTOR") Mock.windows_env "WINDOWS_HOST-2" eq_refl
              eq_refl eq_refl eq_refl) as (req & Hc & Hu & _).
  exists req. split; [exact Hc|].
  cbn [getattr_path]. rewrite Hu. reflexivity.
Defined.

(** ** main_workflow: the action that the flags select *)

(** X18.  The action depends on fifteen keys of [ARGUMENTS] only: two
    mappings that agree on them select the same action with the same
    arguments.  The options [--ase_user], [--ase_pw], [--update_ase_pw],
    [--update_ase_user], [--engine], [--all], [--poll] and [--debug] of
    the usage text are not among them. *)
Theorem main_workflow_action_keys V ARGUMENTS ARGUMENTS' :
  (forall key, In key action_keys -> ARGUMENTS !! key = ARGUMENTS' !! key) ->
  main_workflow_action V ARGUMENTS = main_workflow_action V ARGUMENTS'.
Proof.
  intros H. unfold main_workflow_action, arg, subscript.
  rewrite !(H "--env_name"), !(H "--host_user"), !(H "--passwd"), !(H "--ip"),
    !(H "--type"), !(H "--connector_name"), !(H "--toolkit"), !(H "--delete"),
    !(H "--refresh"), !(H "--list"), !(H "--update_host"),
    !(H "--old_host_address"), !(H "--new_host_address"), !(H "--enable"),
    !(H "--disable") by (cbn; tauto).
  reflexivity.
Qed.

Lemma main_workflow_action_keys_witness :
  main_workflow_action Mock.quiet Mock.linux_ase_arguments
  = main_workflow_action Mock.quiet
      (delete "--ase_user" (delete "--ase_pw" Mock.linux_ase_arguments)).
Proof.
  apply main_workflow_action_keys.
  intros key Hkey. cbn in Hkey.
  repeat (destruct Hkey as [<-|Hkey]; [vm_compute; reflexivity|]).
  contradiction.
Defined.

Lemma other_kind_no_ase kind :
  kind <> "environment.create" -> forall c, call_kind c = kind -> no_ase c.
Proof. intros Hk c Hc. destruct c; cbn in *; congruence || exact I. Qed.

Lemma create_linux_env_no_ase V env_name host_user ip_addr toolkit_path passwd :
  only_calls no_ase
    (create_linux_env V env_name host_user ip_addr toolkit_path passwd VNone
       VNone).
Proof.
  intros s. destruct (engines_key0 V) as [engine|e] eqn:Hk.
  - eexists. split; [eapply create_linux_env_calls, Hk|].
    repeat constructor.
  - exists []. rewrite app_nil_r. split; [|constructor].
    destruct (engine_name_failure V e s Hk) as (_ & _ & H & _).
    now rewrite H.
Qed.

Lemma create_windows_env_no_ase V env_name host_user ip_addr passwd
    connector_name :
  only_calls no_ase
    (create_windows_env V env_name host_user ip_addr passwd connector_name).
Proof.
  intros s.
  assert (Hnone : forall r,
             create_windows_env V env_name host_user ip_addr passwd
               connector_name s = (r, s) ->
             exists l,
               calls (snd (create_windows_env V env_name host_user ip_addr
                             passwd connector_name s)) = calls s ++ l /\
               Forall no_ase l).
  { intros r ->. exists []. rewrite app_nil_r. split; [reflexivity|constructor]. }
  destruct (engines_key0 V) as [engine|e] eqn:Hk.
  - destruct (truthy connector_name) eqn:Ht.
    + destruct (find_env_by_name V (calls s) connector_name)
        as [[o|]|e] eqn:Hf.
      * destruct (Env.host o) as [h|] eqn:Hh.
        -- eexists. split.
           ++ rewrite (create_windows_env_calls _ _ _ _ _ _ _ _ _ _
                         Hk Ht Hf Hh).
              destruct (respond V (calls s) _) as [j|e]; [reflexivity|].
              destruct (catches _ _ e); reflexivity.
           ++ repeat constructor.
        -- eapply Hnone, create_windows_env_hostless; eauto.
      * eapply Hnone, create_windows_env_no_connector; eauto.
      * eapply Hnone, create_windows_env_lookup_raises; eauto.
    + eapply Hnone, create_windows_env_no_connector; eauto.
  - destruct (engine_name_failure V e s Hk) as (_ & _ & _ & H).
    eapply Hnone, H.
Qed.

Ltac other_kind kind lem :=
  apply (only_calls_weaken (fun c => call_kind c = kind) no_ase _
           (other_kind_no_ase kind ltac:(discriminate)));
  apply lem.

Ltac action_step :=
  lazymatch goal with
  | |- only_calls _ (create_linux_env _ _ _ _ _ _ _ _) =>
      apply create_linux_env_no_ase
  | |- only_calls _ (create_windows_env _ _ _ _ _ _) =>
      apply create_windows_env_no_ase
  | |- only_calls _ (delete_env _ _) =>
      other_kind "environment.delete" delete_env_calls_delete
  | |- only_calls _ (refresh_env _ _) =>
      other_kind "environment.refresh" refresh_env_calls_refresh
  | |- only_calls _ (list_env _) =>
      other_kind "environment.get_all" list_env_calls_get_all
  | |- only_calls _ (update_host_address _ _ _) =>
      other_kind "host.update" update_host_address_calls_update
  | |- only_calls _ (enable_environment _ _) =>
      other_kind "environment.enable" enable_environment_calls_enable
  | |- only_calls _ (disable_environment _ _) =>
      other_kind "environment.disable" disable_environment_calls_disable
  | |- only_calls _ (ret _) => apply only_calls_keeps, keeps_ret
  | |- only_calls _ (bind (arg _ _) _) =>
      apply only_calls_bind; [apply only_calls_keeps, keeps_lift | intros ?]
  | |- only_calls _ (if ?b then _ else _) => destruct b
  end.

(** X19.  No request that the action sends carries ASE parameters,
    whatever [ARGUMENTS] holds: [--ase_user] and [--ase_pw] are not
    passed on to [create_linux_env]. *)
Theorem main_workflow_action_sends_no_ase V ARGUMENTS :
  only_calls no_ase (main_workflow_action V ARGUMENTS).
Proof. unfold main_workflow_action. repeat action_step. Qed.

Example main_workflow_action_drops_ase_user :
  calls (snd (main_workflow_action Mock.quiet Mock.linux_ase_arguments
                Mock.start))
  = [environment_create
       (linux_request (VStr "test1") (VStr "delphix") (VStr "182.1.1.1")
          (VStr "/var/opt/delphix") VNone VNone VNone)].
Proof. vm_compute. reflexivity. Qed.

(** X20.  When [--type] is neither ['windows'] nor ['linux'] and none of
    [--delete], [--refresh], [--list], [--update_host], [--enable] and
    [--disable] is set, the action does nothing at all and returns: a
    command line of [--update_ase_pw] or [--update_ase_user], which the
    usage text accepts, has no effect on the engine. *)
Theorem main_workflow_action_without_flag V ARGUMENTS s env_name host_user
    passwd ip_addr type delete refresh list update_host enable disable :
  ARGUMENTS !! "--env_name" = Some env_name ->
  ARGUMENTS !! "--host_user" = Some host_user ->
  ARGUMENTS !! "--passwd" = Some passwd ->
  ARGUMENTS !! "--ip" = Some ip_addr ->
  ARGUMENTS !! "--type" = Some type ->
  eq_str type "windows" = false ->
  eq_str type "linux" = false ->
  ARGUMENTS !! "--delete" = Some delete -> truthy delete = false ->
  ARGUMENTS !! "--refresh" = Some refresh -> truthy refresh = false ->
  ARGUMENTS !! "--list" = Some list -> truthy list = false ->
  ARGUMENTS !! "--update_host" = Some update_host ->
  truthy update_host = false ->
  ARGUMENTS !! "--enable" = Some enable -> truthy enable = false ->
  ARGUMENTS !! "--disable" = Some disable -> truthy disable = false ->
  main_workflow_action V ARGUMENTS s = (Ok tt, s).
Proof.
  intros He Hu Hp Hi Ht Hw Hl Hd Hd' Hr Hr' Hls Hls' Huh Huh' Hen Hen' Hdi Hdi'.
  unfold main_workflow_action, arg, subscript, bind, lift.
  rewrite He, Hu, Hp, Hi, Ht, Hd, Hr, Hls, Huh, Hen, Hdi. cbv beta iota.
  rewrite Hw, Hl, Hd', Hr', Hls', Huh', Hen', Hdi'.
  reflexivity.
Qed.

Lemma main_workflow_action_without_flag_witness :
  main_workflow_action Mock.quiet Mock.update_ase_pw_arguments Mock.start
  = (Ok tt, Mock.start).
Proof.
  apply (main_workflow_action_without_flag Mock.quiet
           Mock.update_ase_pw_arguments Mock.start (VStr "test1") VNone VNone
           VNone VNone VNone VNone (VBool false) (VBool false) (VBool false)
           (VBool false)); vm_compute; reflexivity.
Defined.

(** ** main_workflow: the loop *)

(** Once the action is done, the loop only tests its condition: with a
    job still listed it goes round without changing anything. *)
Lemma main_workflow_loop_idle V R ARGUMENTS engine s :
  jobs s <> ∅ ->
  forall fuel, main_workflow_loop V R ARGUMENTS fuel engine [] s = (Ok None, s).
Proof.
  intros Hj. apply map_size_non_empty_iff in Hj.
  induction fuel as [|fuel IH]; [reflexivity|].
  cbn [main_workflow_loop].
  destruct (Nat.eqb_spec (size (jobs s)) 0); [contradiction|].
  exact IH.
Qed.

Lemma main_workflow_loop_done V R ARGUMENTS engine s fuel :
  jobs s = ∅ ->
  main_workflow_loop V R ARGUMENTS (S fuel) engine [] s = (Ok (Some tt), s).
Proof.
  intros Hj. cbn [main_workflow_loop]. rewrite Hj, map_size_empty. reflexivity.
Qed.

(** X21.  The poller is called once, right after the action, inside the
    [if thingstodo:] block.  When it comes back with a job still in the
    mapping, the loop never ends: it tests its condition again and again
    and nothing changes the session (no amount of fuel suffices).  When
    the mapping is empty, the loop ends at the next test. *)
Theorem main_workflow_loop_after_action V R ARGUMENTS engine s s1 s2 :
  main_workflow_action V ARGUMENTS s = (Ok tt, s1) ->
  find_job_state R engine s1 = (Ok tt, s2) ->
  (jobs s2 <> ∅ ->
   forall fuel,
     fst (main_workflow_loop V R ARGUMENTS fuel engine ["thingstodo"] s)
     = Ok None) /\
  (jobs s2 = ∅ ->
   forall fuel,
     main_workflow_loop V R ARGUMENTS (S (S fuel)) engine ["thingstodo"] s
     = (Ok (Some tt), s2)).
Proof.
  intros Ha Hp.
  assert (Hstep : forall fuel,
             main_workflow_loop V R ARGUMENTS (S fuel) engine ["thingstodo"] s
             = main_workflow_loop V R ARGUMENTS fuel engine [] s2).
  { intros fuel. cbn [main_workflow_loop removelast].
    rewrite orb_true_r. unfold bind at 1. rewrite Ha.
    unfold bind at 1. now rewrite Hp. }
  split.
  - intros Hj [|fuel]; [reflexivity|].
    now rewrite Hstep, main_workflow_loop_idle.
  - intros Hj fuel. now rewrite Hstep, main_workflow_loop_done.
Qed.

Lemma main_workflow_loop_after_action_witness :
  fst (main_workflow_loop Mock.quiet
         (Mock.runner (Ok tt) Mock.jobs_pending) Mock.delete_arguments 1000
         Mock.engine_entry ["thingstodo"] Mock.start) = Ok None /\
  fst (main_workflow_loop Mock.quiet
         (Mock.runner (Ok tt) Mock.jobs_done) Mock.delete_arguments 2
         Mock.engine_entry ["thingstodo"] Mock.start) = Ok (Some tt).
Proof.
  split.
  - apply (proj1 (main_workflow_loop_after_action Mock.quiet
                    (Mock.runner (Ok tt) Mock.jobs_pending)
                    Mock.delete_arguments Mock.engine_entry Mock.start
                    (snd (main_workflow_action Mock.quiet
                            Mock.delete_arguments Mock.start))
                    (snd (main_workflow_action Mock.quiet
                            Mock.delete_arguments Mock.start))
                    ltac:(vm_compute; reflexivity)
                    ltac:(vm_compute; reflexivity))).
    intros H. apply (f_equal size) in H. vm_compute in H. discriminate.
  - rewrite (proj2 (main_workflow_loop_after_action Mock.quiet
                      (Mock.runner (Ok tt) Mock.jobs_done)
                      Mock.delete_arguments Mock.engine_entry Mock.start
                      (snd (main_workflow_action Mock.quiet
                              Mock.delete_arguments Mock.start))
                      (snd (Mock.jobs_done Mock.engine_entry
                              (snd (main_workflow_action Mock.quiet
                                      Mock.delete_arguments Mock.start))))
                      ltac:(vm_compute; reflexivity)
                      ltac:(vm_compute; reflexivity))
               ltac:(reflexivity) 0%nat).
    reflexivity.
Defined.

(** ** main_workflow: failures *)

(** X22.  A failed authentication is meant to be logged, but the message
    reads [ARGUMENTS["--target"]], a key that the usage text does not
    declare: when it is missing, [main_workflow] raises the [KeyError] of
    that key in the handler, logs nothing and performs no action. *)
Theorem main_workflow_login_failure V R ARGUMENTS engine single_thread fuel s
    ip_address username password error s0 hostname :
  engine !! "ip_address" = Some ip_address ->
  engine !! "username" = Some username ->
  engine !! "password" = Some password ->
  dlpx_session R ip_address username password s
  = (Raise (DlpxException error), s0) ->
  engine !! "hostname" = Some hostname ->
  ARGUMENTS !! "--target" = None ->
  main_workflow V R ARGUMENTS engine single_thread fuel s
  = (Raise (KeyError "--target"), s0).
Proof.
  intros Hi Hu Hp Hs Hh Ht. unfold main_workflow.
  unfold bind at 1, try_except at 1.
  unfold bind at 1, lift, subscript. rewrite Hi.
  unfold bind at 1. rewrite Hu.
  unfold bind at 1. rewrite Hp, Hs.
  cbn [select_handler catches existsb isinstance orb].
  unfold bind, arg, lift, subscript. now rewrite Hh, Ht.
Qed.

Lemma main_workflow_login_failure_witness :
  main_workflow Mock.quiet
    (Mock.runner (Raise (DlpxException "bad credentials")) Mock.jobs_done)
    Mock.delete_arguments Mock.engine_entry (VBool false) 10 Mock.start
  = (Raise (KeyError "--target"), Mock.start).
Proof.
  apply (main_workflow_login_failure Mock.quiet
           (Mock.runner (Raise (DlpxException "bad credentials"))
              Mock.jobs_done)
           Mock.delete_arguments Mock.engine_entry (VBool false) 10%nat
           Mock.start (VStr "10.0.1.10") (VStr "delphix_admin")
           (VStr "delphix") "bad credentials" Mock.start
           (VStr "landsharkengine")); vm_compute; reflexivity.
Defined.

(** A [try] with one clause whose handler always returns lets no
    exception of the classes of the clause through. *)
Lemma try_except_absorbs {A} nf (body : M A) classes h s e :
  (forall e0 s0, exists a s1, h e0 s0 = (Ok a, s1)) ->
  fst (try_except nf body [(classes, h)] s) = Raise e ->
  catches nf classes e = false.
Proof.
  intros Hh. unfold try_except.
  destruct (body s) as [[a|e'] s']; [discriminate|].
  cbn [select_handler]. destruct (catches nf classes e') eqn:Hc.
  - destruct (Hh e' s') as (a & s1 & ->). discriminate.
  - now intros [= <-].
Qed.

(** X23.  Once the authentication has returned, no [DlpxException],
    [RequestError], [JobError] or [HttpError] leaves [main_workflow],
    whatever the action, the poller and the context manager do: the
    failure of an action ends in the log of the thread and never reaches
    [main]. *)
Theorem main_workflow_absorbs_failures V R ARGUMENTS engine single_thread fuel
    s ip_address username password s0 hostname e :
  engine !! "ip_address" = Some ip_address ->
  engine !! "username" = Some username ->
  engine !! "password" = Some password ->
  dlpx_session R ip_address username password s = (Ok tt, s0) ->
  engine !! "hostname" = Some hostname ->
  fst (main_workflow V R ARGUMENTS engine single_thread fuel s) = Raise e ->
  catches (not_found_is_dlpx V)
    [CDlpxException; CRequestError; CJobError; CHttpError] e = false.
Proof.
  intros Hi Hu Hp Hs Hh. unfold main_workflow.
  unfold bind at 1, try_except at 1.
  unfold bind at 1, lift, subscript. rewrite Hi.
  unfold bind at 1. rewrite Hu.
  unfold bind at 1. rewrite Hp, Hs.
  apply try_except_absorbs.
  intros e0 s1. unfold bind, lift, print_exception, ret. rewrite Hh.
  eexists; eexists; reflexivity.
Qed.

Lemma main_workflow_absorbs_failures_witness :
  main_workflow
    (Mock.failing (environment_delete "") (RequestError "in use"))
    (Mock.runner (Ok tt) Mock.jobs_done) Mock.delete_arguments
    Mock.engine_entry (VBool false) 10 Mock.start
  = (Ok (Some tt),
     with_log ("Error in dx_environment: landsharkengine" +:+ nl +:+ "in use")
       (with_call (environment_delete "UNIX_HOST_ENVIRONMENT-1") Mock.start))
  /\
  fst (main_workflow
         (Mock.failing (environment_delete "") (RequestError "in use"))
         (Mock.runner (Ok tt) Mock.jobs_done) Mock.delete_arguments
         Mock.engine_entry (VBool false) 10 Mock.start)
  <> Raise (RequestError "in use").
Proof.
  split; [vm_compute; reflexivity|].
  intros H.
  apply (main_workflow_absorbs_failures
           (Mock.failing (environment_delete "") (RequestError "in use"))
           (Mock.runner (Ok tt) Mock.jobs_done) Mock.delete_arguments
           Mock.engine_entry (VBool false) 10%nat Mock.start
           (VStr "10.0.1.10") (VStr "delphix_admin") (VStr "delphix")
           Mock.start (VStr "landsharkengine") (RequestError "in use")
           ltac:(vm_compute; reflexivity) ltac:(vm_compute; reflexivity)
           ltac:(vm_compute; reflexivity) ltac:(reflexivity)
           ltac:(vm_compute; reflexivity)) in H.
  discriminate H.
Defined.

(** ** main: exit codes, and what reaches them *)

Lemma main_body_raises L ARGUMENTS e s :
  try_body_raises L ARGUMENTS e -> main_body L ARGUMENTS s = (Raise e, s).
Proof.
  intros [Hs | logdir Hs Hl Hlog
          | logdir config single_thread engine Hs Hl Hlog Hc Ht He Hcfg
          | logdir config single_thread engine Hs Hl Hlog Hc Ht He Hcfg Hrun];
    unfold main_body, bind, lift, subscript.
  - now rewrite Hs.
  - now rewrite Hs, Hl, Hlog.
  - now rewrite Hs, Hl, Hlog, Hc, Ht, He, Hcfg.
  - now rewrite Hs, Hl, Hlog, Hc, Ht, He, Hcfg, Hrun.
Qed.

Lemma main_body_returns L ARGUMENTS s :
  try_body_returns L ARGUMENTS ->
  main_body L ARGUMENTS s
  = (Ok tt,
     with_log ("script took " +:+ time_elapsed L +:+
               " minutes to get this far.") s).
Proof.
  intros (logdir & config & single_thread & engine
          & Hs & Hl & Hlog & Hc & Ht & He & Hcfg & Hrun).
  unfold main_body, bind, lift, subscript.
  now rewrite Hs, Hl, Hlog, Hc, Ht, He, Hcfg, Hrun.
Qed.

(** C6.  [main] maps what the calls of its own [try] body do.  When the
    construction of the session, the set-up of the log, the reading of the
    configuration or the start and join of the engine threads raises a
    [DlpxException] or an [HttpError] (the calls before it having
    returned), the process leaves with status 2; for a [JobError] with
    status 3; a [SystemExit] goes through with its code; when the four
    return, [main] returns and the status is 0.  A [DlpxException],
    [RequestError], [JobError] or [HttpError] of an action is not among
    these: once the authentication has returned, [main_workflow] lets none
    of them out. *)
Theorem main_exit_codes V L ARGUMENTS s :
  (forall error,
     try_body_raises L ARGUMENTS (DlpxException error) ->
     exit_status (fst (main V L ARGUMENTS s)) = 2) /\
  (forall status,
     try_body_raises L ARGUMENTS (HttpError status) ->
     exit_status (fst (main V L ARGUMENTS s)) = 2) /\
  (forall job,
     try_body_raises L ARGUMENTS (JobError job) ->
     exit_status (fst (main V L ARGUMENTS s)) = 3) /\
  (forall code,
     try_body_raises L ARGUMENTS (SystemExit code) ->
     fst (main V L ARGUMENTS s) = Raise (SystemExit code)) /\
  (try_body_returns L ARGUMENTS ->
   fst (main V L ARGUMENTS s) = Ok tt /\
   exit_status (fst (main V L ARGUMENTS s)) = 0) /\
  (forall R engine single_thread fuel ip_address username password s0
          hostname e,
     engine !! "ip_address" = Some ip_address ->
     engine !! "username" = Some username ->
     engine !! "password" = Some password ->
     dlpx_session R ip_address username password s = (Ok tt, s0) ->
     engine !! "hostname" = Some hostname ->
     fst (main_workflow V R ARGUMENTS engine single_thread fuel s) = Raise e ->
     catches (not_found_is_dlpx V)
       [CDlpxException; CRequestError; CJobError; CHttpError] e = false).
Proof.
  destruct (main_exit_status V L ARGUMENTS s)
    as (Hdlpx & Hhttp & Hjob & Hexit & Hreturn).
  repeat apply conj.
  - intros error Hb. apply (Hdlpx error).
    now rewrite (main_body_raises _ _ _ s Hb).
  - intros status Hb. apply (Hhttp status).
    now rewrite (main_body_raises _ _ _ s Hb).
  - intros job Hb. apply (Hjob job).
    now rewrite (main_body_raises _ _ _ s Hb).
  - intros code Hb. apply (Hexit code).
    now rewrite (main_body_raises _ _ _ s Hb).
  - intros Hb. apply Hreturn.
    now rewrite (main_body_returns _ _ s Hb).
  - intros R engine single_thread fuel ip_address username password s0
      hostname e Hi Hu Hp Hs Hh.
    unfold main_workflow.
    unfold bind at 1, try_except at 1.
    unfold bind at 1, lift, subscript. rewrite Hi.
    unfold bind at 1. rewrite Hu.
    unfold bind at 1. rewrite Hp, Hs.
    apply try_except_absorbs.
    intros e0 s1. unfold bind, lift, print_exception, ret. rewrite Hh.
    eexists; eexists; reflexivity.
Qed.

Lemma main_exit_codes_witness :
  exit_status (fst (main Mock.quiet
                      (Mock.lib (Raise (DlpxException "no engine")))
                      Mock.usage_arguments Mock.start)) = 2 /\
  exit_status (fst (main Mock.quiet (Mock.lib (Raise (HttpError "401")))
                      Mock.usage_arguments Mock.start)) = 2 /\
  exit_status (fst (main Mock.quiet
                      (Mock.lib_fan_out (Raise (JobError "JOB-7")))
                      Mock.arguments Mock.start)) = 3 /\
  fst (main Mock.quiet (Mock.lib (Raise (SystemExit (VInt 5))))
         Mock.usage_arguments Mock.start) = Raise (SystemExit (VInt 5)) /\
  exit_status (fst (main Mock.quiet (Mock.lib_fan_out (Ok tt)) Mock.arguments
                      Mock.start)) = 0 /\
  fst (main_workflow
         (Mock.failing (environment_create VNone) (RequestError "denied"))
         (Mock.runner (Ok tt) Mock.jobs_done) Mock.linux_ase_arguments
         Mock.engine_entry (VBool false) 10 Mock.start)
  <> Raise (DlpxException
              ("ERROR: Encountered an exception while creating the environment:"
               +:+ nl +:+ "denied")).
Proof.
  split; [|split; [|split; [|split; [|split]]]].
  - apply (proj1 (main_exit_codes Mock.quiet
                    (Mock.lib (Raise (DlpxException "no engine")))
                    Mock.usage_arguments Mock.start) "no engine").
    apply raises_GetSession. reflexivity.
  - destruct (main_exit_codes Mock.quiet (Mock.lib (Raise (HttpError "401")))
                Mock.usage_arguments Mock.start) as (_ & H & _).
    apply (H "401"). apply raises_GetSession. reflexivity.
  - destruct (main_exit_codes Mock.quiet
                (Mock.lib_fan_out (Raise (JobError "JOB-7")))
                Mock.arguments Mock.start) as (_ & _ & H & _).
    apply (H "JOB-7").
    apply (raises_run_job _ _ _ (VStr "./dx_environment.log")
             (VStr "./dxtools.conf") (VBool false) VNone);
      vm_compute; reflexivity.
  - destruct (main_exit_codes Mock.quiet
                (Mock.lib (Raise (SystemExit (VInt 5))))
                Mock.usage_arguments Mock.start) as (_ & _ & _ & H & _).
    apply (H (VInt 5)). apply raises_GetSession. reflexivity.
  - destruct (main_exit_codes Mock.quiet (Mock.lib_fan_out (Ok tt))
                Mock.arguments Mock.start) as (_ & _ & _ & _ & H & _).
    apply H.
    exists (VStr "./dx_environment.log"), (VStr "./dxtools.conf"),
      (VBool false), VNone.
    vm_compute. repeat split.
  - intros Hraise.
    destruct (main_exit_codes
                (Mock.failing (environment_create VNone)
                   (RequestError "denied"))
                (Mock.lib (Ok tt)) Mock.linux_ase_arguments Mock.start)
      as (_ & _ & _ & _ & _ & H).
    apply (H (Mock.runner (Ok tt) Mock.jobs_done) Mock.engine_entry
             (VBool false) 10%nat (VStr "10.0.1.10") (VStr "delphix_admin")
             (VStr "delphix") Mock.start (VStr "landsharkengine") _
             ltac:(vm_compute; reflexivity) ltac:(vm_compute; reflexivity)
             ltac:(vm_compute; reflexivity) ltac:(reflexivity)
             ltac:(vm_compute; reflexivity)) in Hraise.
    discriminate Hraise.
Defined.

(** The claim fails for the runs that the script can have.  With the
    mapping that the usage text yields, the process leaves with status 1
    whether the start and join of the engine threads raises a [JobError],
    raises a [DlpxException] or returns: [ARGUMENTS['--single_thread']] is
    read before them.  And a [DlpxException] that [create_linux_env]
    raises inside [main_workflow] does not come out of it: it is logged
    there and [main_workflow] returns. *)
Lemma main_exit_codes_counterexample :
  Mock.usage_arguments !! "--single_thread" = None /\
  exit_status (fst (main Mock.quiet
                      (Mock.lib_fan_out (Raise (JobError "JOB-7")))
                      Mock.usage_arguments Mock.start)) = 1 /\
  exit_status (fst (main Mock.quiet
                      (Mock.lib_fan_out (Raise (DlpxException "failed")))
                      Mock.usage_arguments Mock.start)) = 1 /\
  exit_status (fst (main Mock.quiet (Mock.lib_fan_out (Ok tt))
                      Mock.usage_arguments Mock.start)) = 1 /\
  fst (create_linux_env
         (Mock.failing (environment_create VNone) (RequestError "denied"))
         (VStr "test1") (VStr "delphix") (VStr "182.1.1.1")
         (VStr "/var/opt/delphix") VNone VNone VNone Mock.start)
  = Raise (DlpxException
             ("ERROR: Encountered an exception while creating the environment:"
              +:+ nl +:+ "denied")) /\
  fst (main_workflow
         (Mock.failing (environment_create VNone) (RequestError "denied"))
         (Mock.runner (Ok tt) Mock.jobs_done) Mock.linux_ase_arguments
         Mock.engine_entry (VBool false) 10 Mock.start) = Ok (Some tt) /\
  log (snd (main_workflow
              (Mock.failing (environment_create VNone) (RequestError "denied"))
              (Mock.runner (Ok tt) Mock.jobs_done) Mock.linux_ase_arguments
              Mock.engine_entry (VBool false) 10 Mock.start))
  = ["Error in dx_environment: landsharkengine" +:+ nl +:+
     "ERROR: Encountered an exception while creating the environment:" +:+
     nl +:+ "denied"].
Proof. vm_compute. repeat split. Qed.
